(** * FreshCart grocery agent: cart, catalog lookup, order ledger, recipes

    A shallow embedding of the four tools of [backend/src/agent.py]
    ([add_to_cart], [remove_from_cart], [place_order], [ingredients_for])
    and the properties the specification states about them.

    Conventions of the embedding.
    - A Python [str] is a [string]: a sequence of characters with code
      points below 256.  [lower] and [strip] are Python's [str.lower] and
      [str.strip] on that range.
    - A Python [int] is a [Z] (unbounded).  Printing one in an f-string
      is partial, as in CPython from 3.11 on with its default setting: an
      int of more than 4300 decimal digits raises [ValueError].
    - Python's [float] arithmetic is an interface, [PyNum]: the tools only
      multiply a price by a quantity, sum, and round to two digits.  The
      conversion of an [int] to a [float] is partial, as in Python
      ([OverflowError]).  [binary64] is the IEEE-754 instance the examples
      run on.
    - The session's [ctx.userdata.cart], the catalog file and the orders
      file are passed in and returned explicitly.  A tool's returned text
      is modelled by its fields ([reply]): ["UPDATED|<name>|<quantity>"] is
      [UPDATED name quantity].
    - The module's start-up and the JSON helpers ([load_catalog],
      [load_orders], [save_orders]) work on [Files]: each file is the
      value [json.load] reads from it, or absent. *)

From Stdlib Require Import ZArith String Ascii DecimalString DecimalZ DecimalPos SpecFloat.
From stdpp Require Import base decidable option list strings gmap.

Local Open Scope Z_scope.

(** ** Strings: [str.lower] and [str.strip] *)

(** Code point of a character. *)
Definition ord (c : ascii) : Z := Z.of_N (N_of_ascii c).

(** Inverse of [ord] on 0..255. *)
Definition chr (n : Z) : ascii := ascii_of_N (Z.to_N n).

(** The characters [str.lower] changes below code point 256: A-Z, and the
    Latin-1 capitals U+00C0..U+00DE except the multiplication sign U+00D7.
    Each moves 32 code points up. *)
Definition is_upper (c : ascii) : bool :=
  let n := ord c in
  ((65 <=? n) && (n <=? 90)) || ((192 <=? n) && (n <=? 222) && negb (n =? 215)).

Definition lower_char (c : ascii) : ascii :=
  if is_upper c then chr (ord c + 32) else c.

(** [s.lower()] *)
Fixpoint lower (s : string) : string :=
  match s with
  | EmptyString => EmptyString
  | String c s' => String (lower_char c) (lower s')
  end.

(** [c.isspace()] below code point 256: TAB, LF, VT, FF, CR, FS, GS, RS,
    US, SPACE, NEL (U+0085) and NBSP (U+00A0); the set [str.strip] removes
    when it is called without arguments. *)
Definition is_space (c : ascii) : bool :=
  let n := ord c in
  ((9 <=? n) && (n <=? 13)) || ((28 <=? n) && (n <=? 32)) || (n =? 133) || (n =? 160).

(** [s.lstrip()] *)
Fixpoint lstrip (s : string) : string :=
  match s with
  | EmptyString => EmptyString
  | String c s' => if is_space c then lstrip s' else s
  end.

(** [s.rstrip()]: a character is dropped when it is a space and nothing
    but spaces follows it. *)
Fixpoint rstrip (s : string) : string :=
  match s with
  | EmptyString => EmptyString
  | String c s' =>
      match rstrip s' with
      | EmptyString => if is_space c then EmptyString else String c EmptyString
      | r => String c r
      end
  end.

(** [s.strip()] *)
Definition strip (s : string) : string := rstrip (lstrip s).

(** A string of white space only. *)
Fixpoint all_space (s : string) : bool :=
  match s with
  | EmptyString => true
  | String c s' => is_space c && all_space s'
  end.

(** Equality of names as the tools test it: [a.lower() == b.lower()]. *)
Definition ci_eq (a b : string) : Prop := lower a = lower b.

#[global] Instance ci_eq_dec a b : Decision (ci_eq a b).
Proof. unfold ci_eq. apply _. Defined.

#[global] Typeclasses Opaque ci_eq.

(** [str(n)] for an [int]. *)
Definition str_of_int (n : Z) : string := NilZero.string_of_int (Z.to_int n).

(** [sys.get_int_max_str_digits()], at its default. *)
Definition int_max_str_digits : Z := 4300.

(** The ints an f-string prints: those of at most [int_max_str_digits]
    decimal digits, the sign not counted.  On the others the conversion
    raises [ValueError: Exceeds the limit (4300 digits) for integer string
    conversion]. *)
Definition printable (n : Z) : Prop := Z.abs n < 10 ^ int_max_str_digits.

#[global] Instance printable_dec n : Decision (printable n).
Proof. unfold printable. apply _. Defined.

#[global] Typeclasses Opaque printable.

(** ** Python's numbers *)

(** The part of Python's numeric runtime the tools use.
    - [number]: a price as [json.load] returns it from the catalog;
      [to_float] is [float(item["price"])].
    - [float_of_int]: the conversion [float * int] performs on its right
      operand; [None] is [OverflowError: int too large to convert to
      float], raised exactly from [float_int_bound = 2^1024 - 2^970] on
      in absolute value (the integers that round to [2^1024] or above).
    - [float_mul]: [float * float].
    - [float_sum]: [sum(...)] of a non-empty sequence of floats, started
      at the integer [0].
    - [round2]: [round(x, 2)]. *)
Definition float_int_bound : Z := 2 ^ 1024 - 2 ^ 970.

Class PyNum := {
  number : Type;
  float : Type;
  to_float : number → float;
  float_of_int : Z → option float;
  float_mul : float → float → float;
  float_sum : list float → float;
  round2 : float → float;
  float_of_int_range :
    ∀ n, is_Some (float_of_int n) ↔ Z.abs n < float_int_bound
}.

(** [x * n] for a float [x] and an int [n]. *)
Definition float_mul_int `{PyNum} (x : float) (n : Z) : option float :=
  float_mul x <$> float_of_int n.

(** ** Data model *)

(** An entry of [catalog.json]: [x["name"]], [x["price"]]. *)
Module CatalogItem.
Record t `{PyNum} := mk { name : string; price : number }.
Arguments mk {_} _ _.
End CatalogItem.

(** [@dataclass class CartItem] *)
Module CartItem.
Record t `{PyNum} := mk { name : string; quantity : Z; price : float }.
Arguments mk {_} _ _ _.
End CartItem.

(** [@dataclass class Order]; the orders file holds [asdict] of it. *)
Module Order.
Record t `{PyNum} := mk {
  order_id : string;
  timestamp : string;
  items : list CartItem.t;
  total : float;
  status : string
}.
Arguments mk {_} _ _ _ _ _.
End Order.

(** What a tool returns, by field. *)
Inductive reply `{PyNum} :=
| NOT_FOUND
| UPDATED (name : string) (quantity : Z)
| ADDED (name : string) (quantity : Z)
| REMOVED
| EMPTY
| PLACED (order_id : string) (total : float)
| NO_RECIPE
| ING (ingredients : list string).

(** The text a tool returns for a reply, as the source formats it:
    [f"UPDATED|{ci.name}|{ci.quantity}"], ["ING|" + "|".join(...)], and so
    on.  [repr] prints a float the way an f-string does. *)
Definition render `{PyNum} (repr : float → string) (r : reply) : string :=
  match r with
  | NOT_FOUND => "NOT_FOUND"
  | UPDATED name quantity => "UPDATED|" +:+ name +:+ "|" +:+ str_of_int quantity
  | ADDED name quantity => "ADDED|" +:+ name +:+ "|" +:+ str_of_int quantity
  | REMOVED => "REMOVED"
  | EMPTY => "EMPTY"
  | PLACED order_id total => "PLACED|" +:+ order_id +:+ "|" +:+ repr total
  | NO_RECIPE => "NO_RECIPE"
  | ING ingredients => "ING|" +:+ String.concat "|" ingredients
  end.

(** ** The tools *)

Section Tools.
Context `{PyNum}.

(** The exceptions the tools' own statements raise: [OverflowError] in
    [x.price * x.quantity], [ValueError] in an f-string that prints an
    int, [AttributeError] in [all_orders.append] on a value that is no
    list. *)
Inductive exn := OverflowError | ValueError | AttributeError.

(** A call either returns its reply or raises. *)
Inductive outcome :=
| Return (r : reply)
| Raise (e : exn).

(** [return f"...{n}"]: the reply [r], whose text prints the int [n]. *)
Definition formatted (n : Z) (r : reply) : outcome :=
  if decide (printable n) then Return r else Raise ValueError.

(** The loop of [add_to_cart] over the cart:
    [for ci in cart: if ci.name.lower() == name: ci.quantity += quantity;
    return ...].  [Some (ci, cart')] is the line after its update and the
    cart holding it; [None] when the loop ends without a match. *)
Fixpoint update_existing (name : string) (quantity : Z) (cart : list CartItem.t)
  : option (CartItem.t * list CartItem.t) :=
  match cart with
  | [] => None
  | ci :: rest =>
      if decide (lower (CartItem.name ci) = name) then
        let ci' := CartItem.mk (CartItem.name ci) (CartItem.quantity ci + quantity)
                     (CartItem.price ci) in
        Some (ci', ci' :: rest)
      else
        '(ci', rest') ← update_existing name quantity rest;
        Some (ci', ci :: rest')
  end.

(** [add_to_cart(ctx, item_name, quantity)], on the catalog [load_catalog()]
    read and the session's cart.  The cart is changed before the reply is
    formatted, so a reply that cannot be printed leaves the change in
    place. *)
Definition add_to_cart (catalog : list CatalogItem.t) (cart : list CartItem.t)
    (item_name : string) (quantity : Z) : outcome * list CartItem.t :=
  let name := lower item_name in
  match find (λ x, bool_decide (lower (CatalogItem.name x) = name)) catalog with
  | None => (Return NOT_FOUND, cart)
  | Some item =>
      match update_existing name quantity cart with
      | Some (ci, cart') =>
          (formatted (CartItem.quantity ci)
             (UPDATED (CartItem.name ci) (CartItem.quantity ci)), cart')
      | None =>
          (formatted quantity (ADDED (CatalogItem.name item) quantity),
           cart ++ [CartItem.mk (CatalogItem.name item) quantity
                      (to_float (CatalogItem.price item))])
      end
  end.

(** [remove_from_cart(ctx, item_name)] *)
Definition remove_from_cart (cart : list CartItem.t) (item_name : string)
  : reply * list CartItem.t :=
  let name := lower item_name in
  let before := length cart in
  let cart' := filter (λ x, lower (CartItem.name x) ≠ name) cart in
  let after := length cart' in
  (if decide (after < before)%nat then REMOVED else NOT_FOUND, cart').

(** The two readings of the clock [place_order] takes:
    [int(datetime.now().timestamp())] and [datetime.now().isoformat()]. *)
Record Clock := { unix_seconds : Z; isoformat : string }.

(** [sum(x.price * x.quantity for x in cart)] *)
Definition cart_sum (cart : list CartItem.t) : option float :=
  float_sum <$> mapM (λ x, float_mul_int (CartItem.price x) (CartItem.quantity x)) cart.

(** [place_order(ctx)], on the session's cart and the list [load_orders()]
    read; the last component is the list [save_orders] wrote back, or the
    file as it was when nothing is written. *)
Definition place_order (clock : Clock) (cart : list CartItem.t) (orders : list Order.t)
  : outcome * list CartItem.t * list Order.t :=
  match cart with
  | [] => (Return EMPTY, cart, orders)
  | _ :: _ =>
      match cart_sum cart with
      | None => (Raise OverflowError, cart, orders)
      | Some total =>
          let new_order :=
            Order.mk ("ORD-" +:+ str_of_int (unix_seconds clock)) (isoformat clock)
              cart (round2 total) "received" in
          (Return (PLACED (Order.order_id new_order) (Order.total new_order)),
           [], orders ++ [new_order])
      end
  end.

(** The table of [ingredients_for]. *)
Definition RECIPES : gmap string (list string) :=
  {[ "peanut butter sandwich" := ["bread"; "peanut butter"];
     "pasta" := ["pasta"; "pasta sauce"];
     "tea" := ["tea powder"; "milk"; "sugar"] ]}.

(** [ingredients_for(ctx, dish_name)]; the cart is passed through. *)
Definition ingredients_for (cart : list CartItem.t) (dish_name : string)
  : reply * list CartItem.t :=
  let dish := strip (lower dish_name) in
  match RECIPES !! dish with
  | None => (NO_RECIPE, cart)
  | Some ingredients => (ING ingredients, cart)
  end.

End Tools.

(** ** IEEE-754 binary64 *)

(** CPython's [float] is the binary64 format: [spec_float] at precision 53
    and maximal exponent 1024, with round-to-nearest-even operations. *)
Module B64.

Definition prec : Z := 53.
Definition emax : Z := 1024.

(** The float nearest to [m * 2^e]. *)
Definition of_Z_exp (m e : Z) : spec_float := binary_normalize prec emax m e false.

(** [float(n)]: [PyLong_AsDouble] rounds to nearest-even and raises when
    the result would be [2^1024] or more in absolute value. *)
Definition of_int (n : Z) : option spec_float :=
  if decide (Z.abs n < float_int_bound) then Some (of_Z_exp n 0) else None.

Definition mul : spec_float → spec_float → spec_float := SFmul prec emax.
Definition add : spec_float → spec_float → spec_float := SFadd prec emax.
Definition div : spec_float → spec_float → spec_float := SFdiv prec emax.

(** [sum] of floats from the integer 0: the additions [0.0 + x1 + ... + xn]
    from left to right.  (From CPython 3.12 on [sum] also carries a
    compensation term, which is zero for a single summand.) *)
Definition sum (l : list spec_float) : spec_float := foldl add (S754_zero false) l.

(** The integer nearest to [a / b] for [0 < b], ties to the even one. *)
Definition div_nearest_even (a b : Z) : Z :=
  let q := a / b in
  match 2 * (a mod b) ?= b with
  | Lt => q
  | Gt => q + 1
  | Eq => if Z.even q then q else q + 1
  end.

(** [round(x, 2)]: CPython prints [x] to two decimals, correctly rounded
    from the exact binary value with ties to even, and parses the decimal
    back to the nearest float.  A float with a non-negative exponent is an
    integer and rounds to itself; infinities and NaN round to themselves. *)
Definition round2 (x : spec_float) : spec_float :=
  match x with
  | S754_finite s m e =>
      if 0 <=? e then x
      else
        match div_nearest_even (100 * Z.pos m) (2 ^ (- e)) with
        | Z.pos n => div (S754_finite s n 0) (S754_finite false 100 0)
        | _ => S754_zero s
        end
  | _ => x
  end.

End B64.

Lemma B64_of_int_range n : is_Some (B64.of_int n) ↔ Z.abs n < float_int_bound.
Proof.
  unfold B64.of_int. case_decide as Hn; split; intros Hs;
    first [ done | by eexists | by destruct Hs ].
Qed.

(** A catalog price is held as the float [float()] makes of it. *)
#[global] Instance binary64 : PyNum := {|
  number := spec_float;
  float := spec_float;
  to_float := id;
  float_of_int := B64.of_int;
  float_mul := B64.mul;
  float_sum := B64.sum;
  round2 := B64.round2;
  float_of_int_range := B64_of_int_range
|}.

(** A small shop on [binary64], for the examples. *)
Module Demo.

(** Prices 30.0, 45.0 and 6.5. *)
Definition catalog : list CatalogItem.t :=
  [ CatalogItem.mk "Milk" (B64.of_Z_exp 30 0);
    CatalogItem.mk "Bread" (B64.of_Z_exp 45 0);
    CatalogItem.mk "Eggs" (B64.of_Z_exp 13 (-1)) ].

(** Two loaves and a carton of milk. *)
Definition cart : list CartItem.t :=
  [ CartItem.mk "Bread" 2 (B64.of_Z_exp 45 0);
    CartItem.mk "Milk" 1 (B64.of_Z_exp 30 0) ].

Definition clock : Clock :=
  {| unix_seconds := 1764230400; isoformat := "2025-11-27T08:00:00.000000" |}.

(** A catalog that spells milk in lower case and prices it at 0.125. *)
Definition eighth_catalog : list CatalogItem.t :=
  [ CatalogItem.mk "milk" (B64.of_Z_exp 1 (-3)) ].

End Demo.

(** ** Sessions: sequences of tool calls *)

(** The session's cart and the orders file. *)
Module State.
Record t `{PyNum} := mk { cart : list CartItem.t; orders : list Order.t }.
Arguments mk {_} _ _.
End State.

Section Sessions.
Context `{PyNum}.

(** The calls that work on the cart alone. *)
Inductive cart_call :=
| Add (item_name : string) (quantity : Z)
| Remove (item_name : string).

Inductive call :=
| Cart (c : cart_call)
| PlaceOrder (clock : Clock).

Definition cart_step (catalog : list CatalogItem.t) (cart : list CartItem.t)
    (c : cart_call) : outcome * list CartItem.t :=
  match c with
  | Add item_name quantity => add_to_cart catalog cart item_name quantity
  | Remove item_name =>
      let '(r, cart') := remove_from_cart cart item_name in (Return r, cart')
  end.

(** One tool call on a session.  A call that raises leaves the session as
    the tool left it. *)
Definition step (catalog : list CatalogItem.t) (s : State.t) (c : call)
  : outcome * State.t :=
  match c with
  | Cart c =>
      let '(o, cart') := cart_step catalog (State.cart s) c in
      (o, State.mk cart' (State.orders s))
  | PlaceOrder clock =>
      let '(o, cart', orders') := place_order clock (State.cart s) (State.orders s) in
      (o, State.mk cart' orders')
  end.

(** The cart after a sequence of [add_to_cart] and [remove_from_cart] calls. *)
Definition run_cart (catalog : list CatalogItem.t) (cart : list CartItem.t)
    (calls : list cart_call) : list CartItem.t :=
  foldl (λ cart c, (cart_step catalog cart c).2) cart calls.

(** The session after a sequence of calls. *)
Definition run (catalog : list CatalogItem.t) (s : State.t) (calls : list call)
  : State.t :=
  foldl (λ s c, (step catalog s c).2) s calls.

(** A fresh session, [Userdata()], beside an orders file. *)
Definition fresh (orders : list Order.t) : State.t := State.mk [] orders.

(** ** Vocabulary of the statements *)

(** The catalog entry [x] is sold under [item_name]. *)
Definition item_matches (item_name : string) (x : CatalogItem.t) : Prop :=
  ci_eq (CatalogItem.name x) item_name.

(** The cart line [ci] is a line for [item_name]. *)
Definition line_matches (item_name : string) (ci : CartItem.t) : Prop :=
  ci_eq (CartItem.name ci) item_name.

#[global] Instance item_matches_dec n x : Decision (item_matches n x).
Proof. unfold item_matches. apply _. Defined.

#[global] Instance line_matches_dec n ci : Decision (line_matches n ci).
Proof. unfold line_matches. apply _. Defined.

#[global] Typeclasses Opaque item_matches line_matches.

(** [x] is the first element of [l] with [P], between [l1] and [l2]. *)
Definition first_at {A} (P : A → Prop) (l l1 : list A) (x : A) (l2 : list A) : Prop :=
  l = l1 ++ x :: l2 ∧ Forall (λ y, ¬ P y) l1 ∧ P x.

(** The line [ci] with [quantity] more units. *)
Definition restocked (ci : CartItem.t) (quantity : Z) : CartItem.t :=
  CartItem.mk (CartItem.name ci) (CartItem.quantity ci + quantity) (CartItem.price ci).

(** The line a catalog entry makes. *)
Definition line_of (x : CatalogItem.t) (quantity : Z) : CartItem.t :=
  CartItem.mk (CatalogItem.name x) quantity (to_float (CatalogItem.price x)).

(** The names of the cart's lines, lowered. *)
Definition lowered_names (cart : list CartItem.t) : list string :=
  (λ ci, lower (CartItem.name ci)) <$> cart.

(** A line made from an entry of the catalog: it has the entry's name as
    the catalog spells it, and the entry's price as a float. *)
Definition from_catalog (catalog : list CatalogItem.t) (ci : CartItem.t) : Prop :=
  ∃ x, x ∈ catalog
       ∧ CartItem.name ci = CatalogItem.name x
       ∧ CartItem.price ci = to_float (CatalogItem.price x).

(** [amounts] are the products [x.price * x.quantity] of the lines of
    [cart], in order, each quantity converted to a float first. *)
Definition line_amounts (cart : list CartItem.t) (amounts : list float) : Prop :=
  Forall2 (λ ci a, ∃ q, float_of_int (CartItem.quantity ci) = Some q
                        ∧ a = float_mul (CartItem.price ci) q) cart amounts.

End Sessions.

(** ** The files beside [agent.py] *)

(** What [json.load] makes of a file that exists: it rejects the text
    (an empty or truncated file, anything that is not JSON), or returns
    the value the text denotes. *)
Inductive content (A : Type) :=
| Garbled
| Json (a : A).
Arguments Garbled {A}.
Arguments Json {A} a.

(** The value in [orders.json]: a list of order records, or JSON of
    another kind (an object, a string, a number, [null], a boolean), none
    of which has an [append]. *)
Inductive orders_value `{PyNum} :=
| NotAList
| OrderList (orders : list Order.t).

(** [catalog.json] and [orders.json]: [None] for a file that does not
    exist.  A catalog that parses is a list of name and price records, as
    the data model has it.  Only the program writes the files. *)
Module Files.
Record t `{PyNum} := mk {
  catalog : option (content (list CatalogItem.t));
  orders : option (content orders_value)
}.
Arguments mk {_} _ _.
End Files.

(** What [open(path, "r")] and [json.load] raise. *)
Inductive os_error := FileNotFoundError | JSONDecodeError.

(** What a tool call on the files comes to: the call's own outcome, or the
    error of loading a file. *)
Inductive io_outcome `{PyNum} :=
| Done (o : outcome)
| Failed (e : os_error).

(** The state of a running worker: the session's cart and the two files. *)
Module World.
Record t `{PyNum} := mk { cart : list CartItem.t; files : Files.t }.
Arguments mk {_} _ _.
End World.

Section FilesAndTools.
Context `{PyNum}.

(** The module's top level: without [catalog.json] the import raises;
    a missing [orders.json] is created holding the empty list.  Only
    [os.path.exists] is asked: what the files hold is not looked at. *)
Definition startup (fs : Files.t) : os_error + Files.t :=
  match Files.catalog fs with
  | None => inl FileNotFoundError
  | Some _ =>
      match Files.orders fs with
      | None => inr (Files.mk (Files.catalog fs) (Some (Json (OrderList []))))
      | Some _ => inr fs
      end
  end.

(** [with open(path, "r") as f: return json.load(f)] *)
Definition load {A} (file : option (content A)) : os_error + A :=
  match file with
  | None => inl FileNotFoundError
  | Some Garbled => inl JSONDecodeError
  | Some (Json a) => inr a
  end.

(** [load_catalog()] *)
Definition load_catalog (fs : Files.t) : os_error + list CatalogItem.t :=
  load (Files.catalog fs).

(** [load_orders()] *)
Definition load_orders (fs : Files.t) : os_error + orders_value :=
  load (Files.orders fs).

(** [save_orders(data)]: [open(ORDERS_FILE, "w")] creates or replaces the
    file. *)
Definition save_orders (data : list Order.t) (fs : Files.t) : Files.t :=
  Files.mk (Files.catalog fs) (Some (Json (OrderList data))).

(** [add_to_cart] from its first line, [catalog = load_catalog()]. *)
Definition add_to_cart_io (fs : Files.t) (cart : list CartItem.t)
    (item_name : string) (quantity : Z) : io_outcome * list CartItem.t :=
  match load_catalog fs with
  | inl e => (Failed e, cart)
  | inr catalog =>
      let '(o, cart') := add_to_cart catalog cart item_name quantity in
      (Done o, cart')
  end.

(** [place_order] with its file accesses in their place: the total is
    computed and the order built before [load_orders()] is called, and
    [all_orders.append] comes before anything is written or cleared. *)
Definition place_order_io (clock : Clock) (cart : list CartItem.t) (fs : Files.t)
  : io_outcome * list CartItem.t * Files.t :=
  match cart with
  | [] => (Done (Return EMPTY), cart, fs)
  | _ :: _ =>
      match cart_sum cart with
      | None => (Done (Raise OverflowError), cart, fs)
      | Some total =>
          let new_order :=
            Order.mk ("ORD-" +:+ str_of_int (unix_seconds clock)) (isoformat clock)
              cart (round2 total) "received" in
          match load_orders fs with
          | inl e => (Failed e, cart, fs)
          | inr NotAList => (Done (Raise AttributeError), cart, fs)
          | inr (OrderList all_orders) =>
              (Done (Return (PLACED (Order.order_id new_order) (Order.total new_order))),
               [], save_orders (all_orders ++ [new_order]) fs)
          end
      end
  end.

(** One tool call of a worker. *)
Definition io_step (w : World.t) (c : call) : io_outcome * World.t :=
  match c with
  | Cart (Add item_name quantity) =>
      let '(o, cart') := add_to_cart_io (World.files w) (World.cart w) item_name quantity in
      (o, World.mk cart' (World.files w))
  | Cart (Remove item_name) =>
      let '(r, cart') := remove_from_cart (World.cart w) item_name in
      (Done (Return r), World.mk cart' (World.files w))
  | PlaceOrder clock =>
      let '(o, cart', fs') := place_order_io clock (World.cart w) (World.files w) in
      (o, World.mk cart' fs')
  end.

(** A sequence of calls: what each came to, and the worker afterwards. *)
Fixpoint io_run (w : World.t) (calls : list call) : list io_outcome * World.t :=
  match calls with
  | [] => ([], w)
  | c :: calls =>
      let '(o, w') := io_step w c in
      let '(os, w'') := io_run w' calls in
      (o :: os, w'')
  end.

(** Both files exist. *)
Definition files_exist (fs : Files.t) : Prop :=
  is_Some (Files.catalog fs) ∧ is_Some (Files.orders fs).

(** ** More vocabulary *)

(** The cart read as a dictionary: lowered name to quantity (the first
    line of a name counts, as in the scan of [add_to_cart]). *)
Definition quantities (cart : list CartItem.t) : gmap string Z :=
  list_to_map ((λ ci, (lower (CartItem.name ci), CartItem.quantity ci)) <$> cart).

(** What a cart call does to that dictionary. *)
Definition dict_step (catalog : list CatalogItem.t) (m : gmap string Z)
    (c : cart_call) : gmap string Z :=
  match c with
  | Add item_name quantity =>
      if decide (Exists (item_matches item_name) catalog)
      then <[lower item_name := default 0 (m !! lower item_name) + quantity]> m
      else m
  | Remove item_name => delete (lower item_name) m
  end.

(** The record is one [place_order] writes: it has lines, its status is
    "received", and its total is the rounded sum of its own lines. *)
Definition placed_record (o : Order.t) : Prop :=
  Order.items o ≠ []
  ∧ Order.status o = "received"
  ∧ ∃ amounts, line_amounts (Order.items o) amounts
               ∧ Order.total o = round2 (float_sum amounts).

(** The calls of a sequence that are [place_order] calls. *)
Definition is_place_order (c : call) : bool :=
  match c with PlaceOrder _ => true | Cart _ => false end.

(** A quantity [x.price * x.quantity] cannot convert. *)
Definition too_large (ci : CartItem.t) : Prop :=
  float_int_bound ≤ Z.abs (CartItem.quantity ci).

#[global] Instance too_large_dec ci : Decision (too_large ci).
Proof. unfold too_large. apply _. Defined.

End FilesAndTools.

(** A directory for the examples. *)
Module DemoFiles.

Definition first_run : Files.t := Files.mk (Some (Json Demo.catalog)) None.

Definition no_catalog : Files.t := Files.mk None (Some (Json (OrderList []))).

(** [first_run] after start-up. *)
Definition started : Files.t :=
  Files.mk (Some (Json Demo.catalog)) (Some (Json (OrderList []))).

(** The orders file removed under a running worker. *)
Definition orders_gone : Files.t := Files.mk (Some (Json Demo.catalog)) None.

(** An orders file cut short by a crash, beside a good catalog. *)
Definition orders_truncated : Files.t :=
  Files.mk (Some (Json Demo.catalog)) (Some Garbled).

(** The catalog after a change of spelling and price: eggs at 9.0. *)
Definition new_catalog : list CatalogItem.t :=
  [ CatalogItem.mk "EGGS" (B64.of_Z_exp 9 0) ].

(** Half a second after [Demo.clock]. *)
Definition later_clock : Clock :=
  {| unix_seconds := 1764230400; isoformat := "2025-11-27T08:00:00.500000" |}.

End DemoFiles.

(** ** Properties of the cart tools *)

Section CartProperties.
Context `{PyNum}.
Implicit Types (catalog : list CatalogItem.t) (cart : list CartItem.t).
Implicit Types (x : CatalogItem.t) (ci : CartItem.t) (quantity : Z).

(** *** Linear scans *)

Lemma find_first {A} (P : A → Prop) `{!∀ y, Decision (P y)} (l : list A) (a : A) :
  find (λ y, bool_decide (P y)) l = Some a → ∃ l1 l2, first_at P l l1 a l2.
Proof.
  induction l as [|b l IH]; simpl; [done|].
  case_bool_decide as Hb.
  - intros [= ->]. by exists [], l.
  - intros (l1 & l2 & -> & Hl1 & Ha)%IH.
    exists (b :: l1), l2. split_and!; [done| by constructor |done].
Qed.

Lemma find_none_Forall {A} (P : A → Prop) `{!∀ y, Decision (P y)} (l : list A) :
  find (λ y, bool_decide (P y)) l = None ↔ Forall (λ y, ¬ P y) l.
Proof.
  induction l as [|b l IH]; simpl; [by split|].
  case_bool_decide as Hb.
  - split; [done|]. by intros [? ?]%Forall_cons.
  - rewrite IH, Forall_cons. tauto.
Qed.

Lemma first_at_Exists {A} (P : A → Prop) (l l1 l2 : list A) (a : A) :
  first_at P l l1 a l2 → Exists P l.
Proof. intros (-> & _ & Ha). apply Exists_app. right. by left. Qed.

Lemma first_at_unique {A} (P : A → Prop) (l l1 l2 k1 k2 : list A) (a b : A) :
  first_at P l l1 a l2 → first_at P l k1 b k2 → l1 = k1 ∧ a = b ∧ l2 = k2.
Proof.
  intros (-> & Hl1 & Ha). revert k1.
  induction l1 as [|c l1 IH]; intros [|d k1] (Heq & Hk1 & Hb); simplify_eq/=.
  - done.
  - by apply Forall_cons in Hk1 as [? _].
  - by apply Forall_cons in Hl1 as [? _].
  - apply Forall_cons in Hl1 as [_ Hl1]. apply Forall_cons in Hk1 as [_ Hk1].
    destruct (IH Hl1 k1) as (-> & -> & ->); [by split_and!|done].
Qed.

(** *** The update loop *)

Lemma update_existing_None item_name quantity cart :
  update_existing (lower item_name) quantity cart = None
  ↔ Forall (λ ci, ¬ line_matches item_name ci) cart.
Proof.
  induction cart as [|ci cart IH]; simpl; [by split|].
  case_decide as Hci.
  - split; [done|]. by intros [? ?]%Forall_cons.
  - rewrite Forall_cons, <-IH.
    destruct (update_existing _ _ cart) as [[? ?]|]; simpl; split; try done.
    by intros [_ ?].
Qed.

Lemma update_existing_Some item_name quantity cart ci' cart' :
  update_existing (lower item_name) quantity cart = Some (ci', cart') →
  ∃ l1 ci l2, first_at (line_matches item_name) cart l1 ci l2
    ∧ ci' = restocked ci quantity ∧ cart' = l1 ++ restocked ci quantity :: l2.
Proof.
  revert ci' cart'. induction cart as [|c cart IH]; intros ci' cart'; simpl; [done|].
  case_decide as Hc.
  - intros [= <- <-]. by exists [], c, cart.
  - destruct (update_existing _ _ cart) as [[d rest]|] eqn:Hrec; simpl; [|done].
    intros [= <- <-].
    destruct (IH _ _ eq_refl) as (l1 & ci & l2 & (-> & Hl1 & Hci) & -> & ->).
    exists (c :: l1), ci, l2. unfold first_at. split_and!; try done. by constructor.
Qed.

(** *** [add_to_cart], case by case *)

Lemma add_to_cart_not_found catalog cart item_name quantity :
  Forall (λ x, ¬ item_matches item_name x) catalog →
  add_to_cart catalog cart item_name quantity = (Return NOT_FOUND, cart).
Proof.
  intros Hcat. unfold add_to_cart.
  by rewrite (proj2 (find_none_Forall (item_matches item_name) catalog) Hcat).
Qed.

Lemma add_to_cart_found catalog cart item_name quantity :
  Exists (item_matches item_name) catalog →
  ∃ c1 x c2, first_at (item_matches item_name) catalog c1 x c2
    ∧ add_to_cart catalog cart item_name quantity =
        match update_existing (lower item_name) quantity cart with
        | Some (ci, cart') =>
            (formatted (CartItem.quantity ci)
               (UPDATED (CartItem.name ci) (CartItem.quantity ci)), cart')
        | None =>
            (formatted quantity (ADDED (CatalogItem.name x) quantity),
             cart ++ [line_of x quantity])
        end.
Proof.
  intros Hcat. unfold add_to_cart.
  destruct (find _ catalog) as [x|] eqn:Hfind.
  - apply (find_first (item_matches item_name)) in Hfind as (c1 & c2 & Hx).
    by exists c1, x, c2.
  - apply (find_none_Forall (item_matches item_name)) in Hfind.
    apply Exists_exists in Hcat as (x & Hx & Hm).
    by eapply Forall_forall in Hfind.
Qed.

Lemma add_to_cart_updated catalog cart item_name quantity l1 ci l2 :
  Exists (item_matches item_name) catalog →
  first_at (line_matches item_name) cart l1 ci l2 →
  add_to_cart catalog cart item_name quantity =
    (formatted (CartItem.quantity ci + quantity)
       (UPDATED (CartItem.name ci) (CartItem.quantity ci + quantity)),
     l1 ++ restocked ci quantity :: l2).
Proof.
  intros Hcat Hci.
  destruct (add_to_cart_found catalog cart item_name quantity Hcat)
    as (c1 & x & c2 & _ & ->).
  destruct (update_existing _ _ cart) as [[ci' cart']|] eqn:Hupd.
  - apply update_existing_Some in Hupd as (k1 & d & k2 & Hd & -> & ->).
    by destruct (first_at_unique _ _ _ _ _ _ _ _ Hci Hd) as (-> & -> & ->).
  - apply update_existing_None in Hupd. destruct Hci as (-> & _ & Hci).
    apply Forall_app in Hupd as [_ [? _]%Forall_cons]. done.
Qed.

Lemma add_to_cart_added catalog cart item_name quantity c1 x c2 :
  first_at (item_matches item_name) catalog c1 x c2 →
  Forall (λ ci, ¬ line_matches item_name ci) cart →
  add_to_cart catalog cart item_name quantity =
    (formatted quantity (ADDED (CatalogItem.name x) quantity),
     cart ++ [line_of x quantity]).
Proof.
  intros Hx Hcart.
  destruct (add_to_cart_found catalog cart item_name quantity)
    as (k1 & y & k2 & Hy & ->); [by eapply first_at_Exists|].
  destruct (first_at_unique _ _ _ _ _ _ _ _ Hx Hy) as (-> & -> & ->).
  by rewrite (proj2 (update_existing_None item_name quantity cart) Hcart).
Qed.

Lemma first_at_or_none {A} (P : A → Prop) `{!∀ y, Decision (P y)} (l : list A) :
  Forall (λ y, ¬ P y) l ∨ ∃ l1 a l2, first_at P l l1 a l2.
Proof.
  induction l as [|b l [IH|(l1 & a & l2 & -> & Hl1 & Ha)]].
  - by left.
  - destruct (decide (P b)) as [Hb|Hb].
    + right. by exists [], b, l.
    + left. by constructor.
  - right. destruct (decide (P b)) as [Hb|Hb].
    + by exists [], b, (l1 ++ a :: l2).
    + exists (b :: l1), a, l2. unfold first_at. split_and!; try done. by constructor.
Qed.

Lemma Exists_first_at {A} (P : A → Prop) `{!∀ y, Decision (P y)} (l : list A) :
  Exists P l → ∃ l1 a l2, first_at P l l1 a l2.
Proof.
  intros (a & Ha & HPa)%Exists_exists.
  destruct (first_at_or_none P l) as [Hnone|?]; [|done].
  by eapply Forall_forall in Hnone.
Qed.

Lemma add_to_cart_cases catalog cart item_name quantity :
  (Forall (λ x, ¬ item_matches item_name x) catalog
   ∧ add_to_cart catalog cart item_name quantity = (Return NOT_FOUND, cart))
  ∨ (∃ l1 ci l2,
       first_at (line_matches item_name) cart l1 ci l2
       ∧ add_to_cart catalog cart item_name quantity =
           (formatted (CartItem.quantity ci + quantity)
              (UPDATED (CartItem.name ci) (CartItem.quantity ci + quantity)),
            l1 ++ restocked ci quantity :: l2))
  ∨ (∃ c1 x c2,
       first_at (item_matches item_name) catalog c1 x c2
       ∧ Forall (λ ci, ¬ line_matches item_name ci) cart
       ∧ add_to_cart catalog cart item_name quantity =
           (formatted quantity (ADDED (CatalogItem.name x) quantity),
            cart ++ [line_of x quantity])).
Proof.
  destruct (first_at_or_none (item_matches item_name) catalog)
    as [Hnone|(c1 & x & c2 & Hx)].
  { left. split; [done|]. by apply add_to_cart_not_found. }
  right.
  destruct (first_at_or_none (line_matches item_name) cart)
    as [Hcart|(l1 & ci & l2 & Hci)].
  - right. exists c1, x, c2. split_and!; try done. by eapply add_to_cart_added.
  - left. exists l1, ci, l2. split; [done|].
    apply add_to_cart_updated; [|done]. by eapply first_at_Exists.
Qed.

(** The outcome and the cart depend on [item_name] through [lower] only. *)
Lemma add_to_cart_ci_eq catalog cart n m quantity :
  ci_eq n m →
  add_to_cart catalog cart n quantity = add_to_cart catalog cart m quantity.
Proof. unfold ci_eq, add_to_cart. by intros ->. Qed.

Lemma formatted_printable (n : Z) (r : reply) :
  printable n → formatted n r = Return r.
Proof. intros Hn. unfold formatted. by rewrite decide_True. Qed.

Lemma formatted_unprintable (n : Z) (r : reply) :
  ¬ printable n → formatted n r = Raise ValueError.
Proof. intros Hn. unfold formatted. by rewrite decide_False. Qed.

(** C1, amended. [add_to_cart(item_name, quantity)]: when no catalog entry
    has the name, up to case, the reply is [NOT_FOUND] (and the cart is as
    it was); otherwise, when a cart line has the name, up to case, the
    first such line gets [quantity] more units and nothing else changes;
    otherwise a line is appended with the given quantity and the name and
    the price (as a float) of the first catalog entry of that name.  In
    the last two cases the reply is [UPDATED] with the line's name and new
    quantity, respectively [ADDED], when the quantity it reports has at
    most 4300 decimal digits; beyond that the call raises [ValueError]
    while it formats the reply, the cart already changed. *)
Theorem add_to_cart_spec catalog cart item_name quantity :
  (Forall (λ x, ¬ item_matches item_name x) catalog →
     add_to_cart catalog cart item_name quantity = (Return NOT_FOUND, cart))
  ∧ (Exists (item_matches item_name) catalog →
       (Exists (line_matches item_name) cart →
          ∃ l1 ci l2,
            first_at (line_matches item_name) cart l1 ci l2
            ∧ (add_to_cart catalog cart item_name quantity).2 =
                l1 ++ CartItem.mk (CartItem.name ci)
                        (CartItem.quantity ci + quantity)
                        (CartItem.price ci) :: l2
            ∧ (printable (CartItem.quantity ci + quantity) →
                 (add_to_cart catalog cart item_name quantity).1 =
                   Return (UPDATED (CartItem.name ci)
                             (CartItem.quantity ci + quantity)))
            ∧ (¬ printable (CartItem.quantity ci + quantity) →
                 (add_to_cart catalog cart item_name quantity).1 =
                   Raise ValueError))
       ∧ (Forall (λ ci, ¬ line_matches item_name ci) cart →
            ∃ c1 x c2,
              first_at (item_matches item_name) catalog c1 x c2
              ∧ (add_to_cart catalog cart item_name quantity).2 =
                  cart ++ [CartItem.mk (CatalogItem.name x) quantity
                             (to_float (CatalogItem.price x))]
              ∧ (printable quantity →
                   (add_to_cart catalog cart item_name quantity).1 =
                     Return (ADDED (CatalogItem.name x) quantity))
              ∧ (¬ printable quantity →
                   (add_to_cart catalog cart item_name quantity).1 =
                     Raise ValueError))).
Proof.
  split; [apply add_to_cart_not_found|].
  intros Hcat. split.
  - intros (l1 & ci & l2 & Hci)%(Exists_first_at _).
    exists l1, ci, l2. split; [done|].
    rewrite (add_to_cart_updated catalog cart item_name quantity l1 ci l2 Hcat Hci).
    simpl. split_and!; [done|apply formatted_printable|apply formatted_unprintable].
  - intros Hcart.
    apply (Exists_first_at _) in Hcat as (c1 & x & c2 & Hx).
    exists c1, x, c2. split; [done|].
    rewrite (add_to_cart_added catalog cart item_name quantity c1 x c2 Hx Hcart).
    simpl. split_and!; [done|apply formatted_printable|apply formatted_unprintable].
Qed.

(** C8, amended. [add_to_cart] does not look at the sign or the size of
    [quantity]: for a name the catalog has, up to case, and any integer
    [quantity], zero and negative included, the cart records exactly that
    quantity, added to the first line of the name when the cart has one
    and in a new line at the end otherwise.  The call replies [UPDATED],
    respectively [ADDED], whenever the quantity it reports has at most
    4300 decimal digits. *)
Theorem add_to_cart_any_quantity catalog cart item_name quantity :
  Exists (item_matches item_name) catalog →
  (Exists (line_matches item_name) cart →
     ∃ l1 ci l2,
       first_at (line_matches item_name) cart l1 ci l2
       ∧ (add_to_cart catalog cart item_name quantity).2 =
           l1 ++ CartItem.mk (CartItem.name ci)
                   (CartItem.quantity ci + quantity)
                   (CartItem.price ci) :: l2
       ∧ (printable (CartItem.quantity ci + quantity) →
            (add_to_cart catalog cart item_name quantity).1 =
              Return (UPDATED (CartItem.name ci)
                        (CartItem.quantity ci + quantity))))
  ∧ (Forall (λ ci, ¬ line_matches item_name ci) cart →
       ∃ x, x ∈ catalog ∧ item_matches item_name x
         ∧ (add_to_cart catalog cart item_name quantity).2 =
             cart ++ [CartItem.mk (CatalogItem.name x) quantity
                        (to_float (CatalogItem.price x))]
         ∧ (printable quantity →
              (add_to_cart catalog cart item_name quantity).1 =
                Return (ADDED (CatalogItem.name x) quantity))).
Proof.
  intros Hcat. split.
  - intros (l1 & ci & l2 & Hci)%(Exists_first_at _).
    exists l1, ci, l2. split; [done|].
    rewrite (add_to_cart_updated catalog cart item_name quantity l1 ci l2 Hcat Hci).
    simpl. split; [done|apply formatted_printable].
  - intros Hcart.
    apply (Exists_first_at _) in Hcat as (c1 & x & c2 & Hx).
    rewrite (add_to_cart_added catalog cart item_name quantity c1 x c2 Hx Hcart).
    destruct Hx as (-> & _ & Hx).
    exists x. simpl. split_and!; [set_solver|done|done|apply formatted_printable].
Qed.

(** C6. An item of the catalog added twice, under any capitalisations of
    its name, to a cart that has no line for it: the cart then has exactly
    one line for it, with the sum of the two quantities. *)
Theorem add_twice_sums catalog cart x n1 n2 q1 q2 :
  x ∈ catalog →
  ci_eq n1 (CatalogItem.name x) →
  ci_eq n2 (CatalogItem.name x) →
  Forall (λ ci, ¬ line_matches (CatalogItem.name x) ci) cart →
  let cart1 := (add_to_cart catalog cart n1 q1).2 in
  let cart2 := (add_to_cart catalog cart1 n2 q2).2 in
  ∃ ci, filter (line_matches (CatalogItem.name x)) cart2 = [ci]
        ∧ CartItem.quantity ci = q1 + q2.
Proof.
  intros Hx Hn1 Hn2 Hcart. cbv zeta.
  rewrite (add_to_cart_ci_eq catalog cart _ _ q1 Hn1).
  rewrite (add_to_cart_ci_eq catalog _ _ _ q2 Hn2).
  set (n := CatalogItem.name x) in *.
  assert (Exists (item_matches n) catalog) as Hcat.
  { apply Exists_exists. by exists x. }
  apply (Exists_first_at _) in Hcat as (c1 & y & c2 & Hy).
  rewrite (add_to_cart_added catalog cart n q1 c1 y c2 Hy Hcart). simpl.
  assert (line_matches n (line_of y q1)) as Hline by apply Hy.
  rewrite (add_to_cart_updated catalog _ n q2 cart (line_of y q1) []);
    [|by eapply first_at_Exists|done]. simpl.
  exists (restocked (line_of y q1) q2). split; [|done].
  rewrite filter_app, filter_cons_True, filter_nil by done.
  replace (filter (line_matches n) cart) with (@nil CartItem.t); [done|].
  symmetry. induction Hcart as [|ci cart Hci _ IH]; [done|].
  by rewrite filter_cons_False.
Qed.

(** *** [remove_from_cart] *)

Lemma filter_all {A} (P : A → Prop) `{!∀ y, Decision (P y)} (l : list A) :
  Forall P l → filter P l = l.
Proof.
  induction 1 as [|a l Ha _ IH]; [done|]. by rewrite filter_cons_True, IH.
Qed.

(** C4. [remove_from_cart(item_name)] keeps exactly the lines whose name
    differs from [item_name] after lowering, in their order and as they
    were; the reply is [REMOVED] when a line had the name, and otherwise
    [NOT_FOUND], with the cart as it was. *)
Theorem remove_from_cart_spec cart item_name :
  (remove_from_cart cart item_name).2 =
    filter (λ ci, ¬ line_matches item_name ci) cart
  ∧ (Exists (line_matches item_name) cart →
       (remove_from_cart cart item_name).1 = REMOVED)
  ∧ (Forall (λ ci, ¬ line_matches item_name ci) cart →
       remove_from_cart cart item_name = (NOT_FOUND, cart)).
Proof.
  unfold remove_from_cart. cbv zeta. split_and!.
  - done.
  - intros (ci & Hci & Hm)%Exists_exists. simpl.
    rewrite decide_True; [done|].
    apply (length_filter_lt _ _ ci); [done|]. by intros Hne.
  - intros Hcart.
    change (filter _ cart) with (filter (λ ci, ¬ line_matches item_name ci) cart).
    rewrite (filter_all _ cart Hcart).
    rewrite decide_False; [done|lia].
Qed.

(** *** Invariants of the cart *)

Lemma add_to_cart_names_unique catalog cart item_name quantity :
  NoDup (lowered_names cart) →
  NoDup (lowered_names (add_to_cart catalog cart item_name quantity).2).
Proof.
  intros Hcart. unfold lowered_names in *.
  destruct (add_to_cart_cases catalog cart item_name quantity)
    as [[_ ->]|[(l1 & ci & l2 & (-> & _ & _) & ->)
               |(c1 & x & c2 & (_ & _ & Hx) & Hnone & ->)]]; simpl.
  - done.
  - by rewrite fmap_app, fmap_cons in *.
  - rewrite fmap_app. apply NoDup_app. split_and!; [done| |apply NoDup_singleton].
    intros n (ci & -> & Hci)%list_elem_of_fmap [Heq|[]%elem_of_nil]%elem_of_cons.
    eapply Forall_forall in Hnone; [|done]. apply Hnone.
    unfold line_matches, item_matches, ci_eq in *. simpl in Heq. congruence.
Qed.

Lemma remove_from_cart_names_unique cart item_name :
  NoDup (lowered_names cart) →
  NoDup (lowered_names (remove_from_cart cart item_name).2).
Proof.
  intros Hcart. eapply sublist_NoDup; [done|].
  apply fmap_sublist, sublist_filter.
Qed.

Lemma place_order_cart clock cart orders :
  (place_order clock cart orders).1.2 = [] ∨ (place_order clock cart orders).1.2 = cart.
Proof.
  unfold place_order. destruct cart; [by left|].
  destruct (cart_sum _); [by left|by right].
Qed.

Lemma step_names_unique catalog (s : State.t) (c : call) :
  NoDup (lowered_names (State.cart s)) →
  NoDup (lowered_names (State.cart (step catalog s c).2)).
Proof.
  intros Hs. destruct c as [[item_name quantity|item_name]|clock]; simpl.
  - pose proof (add_to_cart_names_unique catalog _ item_name quantity Hs).
    by destruct (add_to_cart _ _ _ _).
  - exact (remove_from_cart_names_unique _ item_name Hs).
  - pose proof (place_order_cart clock (State.cart s) (State.orders s)) as Hp.
    destruct (place_order _ _ _) as [[o cart'] orders']. simpl in *.
    destruct Hp as [-> | ->]; [apply NoDup_nil_2|done].
Qed.

(** C5. In every session reached from a fresh one by [add_to_cart],
    [remove_from_cart] and [place_order] calls, no two lines of the cart
    have names that are equal after lowering. *)
Theorem cart_names_unique catalog orders (calls : list call) :
  NoDup (lowered_names (State.cart (run catalog (fresh orders) calls))).
Proof.
  unfold run.
  assert (NoDup (lowered_names (State.cart (fresh orders)))) as Hs
    by apply NoDup_nil_2.
  revert Hs. generalize (fresh orders).
  induction calls as [|c calls IH]; intros s Hs; simpl; [done|].
  by apply IH, step_names_unique.
Qed.

Lemma cart_step_from_catalog catalog cart (c : cart_call) :
  Forall (from_catalog catalog) cart →
  Forall (from_catalog catalog) (cart_step catalog cart c).2.
Proof.
  intros Hcart. destruct c as [item_name quantity|item_name]; simpl.
  - destruct (add_to_cart_cases catalog cart item_name quantity)
      as [[_ ->]|[(l1 & ci & l2 & (-> & _ & _) & ->)
                 |(c1 & x & c2 & (-> & _ & _) & _ & ->)]]; simpl.
    + done.
    + apply Forall_app in Hcart as [Hl1 [Hci Hl2]%Forall_cons].
      apply Forall_app. split; [done|]. by constructor.
    + apply Forall_app. split; [done|]. constructor; [|done].
      exists x. split_and!; try done. set_solver.
  - apply Forall_forall. intros ci [_ Hci]%list_elem_of_filter.
    by eapply Forall_forall in Hcart.
Qed.

(** C10. After any sequence of [add_to_cart] and [remove_from_cart] calls
    on an empty cart, against one catalog, every line of the cart has the
    name of a catalog entry, spelled as the catalog spells it, and that
    entry's price as a float. *)
Theorem cart_lines_from_catalog catalog (calls : list cart_call) :
  Forall (from_catalog catalog) (run_cart catalog [] calls).
Proof.
  unfold run_cart.
  assert (Forall (from_catalog catalog) []) as Hs by constructor.
  revert Hs. generalize (@nil CartItem.t).
  induction calls as [|c calls IH]; intros cart Hcart; simpl; [done|].
  by apply IH, cart_step_from_catalog.
Qed.

End CartProperties.

(** ** Properties of [place_order] *)

Section OrderProperties.
Context `{PyNum}.
Implicit Types (catalog : list CatalogItem.t) (cart : list CartItem.t).
Implicit Types (orders : list Order.t) (clock : Clock).

Lemma float_mul_int_Some (x : float) (n : Z) (a : float) :
  float_mul_int x n = Some a ↔ ∃ q, float_of_int n = Some q ∧ a = float_mul x q.
Proof.
  unfold float_mul_int. destruct (float_of_int n) as [q|]; simpl.
  - split; [intros [= <-]; by exists q | by intros (? & [= <-] & ->)].
  - split; [done | by intros (? & ? & _)].
Qed.

Lemma cart_sum_Some cart total :
  cart_sum cart = Some total ↔ ∃ amounts, line_amounts cart amounts ∧ total = float_sum amounts.
Proof.
  unfold cart_sum, line_amounts. rewrite fmap_Some.
  setoid_rewrite mapM_Some.
  split; intros (amounts & Ha & ->); exists amounts; (split; [|done]);
    (eapply Forall2_impl; [done|]); intros ci a; by rewrite float_mul_int_Some.
Qed.

Lemma cart_sum_in_range cart :
  Forall (λ ci, Z.abs (CartItem.quantity ci) < float_int_bound) cart →
  is_Some (cart_sum cart).
Proof.
  intros Hcart. unfold cart_sum. apply fmap_is_Some, mapM_is_Some.
  eapply Forall_impl; [done|]. intros ci Hci%float_of_int_range. simpl.
  unfold float_mul_int. by apply fmap_is_Some.
Qed.

Lemma cart_sum_overflow cart :
  Exists (λ ci, float_int_bound ≤ Z.abs (CartItem.quantity ci)) cart →
  cart_sum cart = None.
Proof.
  intros Hcart. unfold cart_sum. apply fmap_None, mapM_None.
  eapply Exists_impl; [done|]. intros ci Hci. simpl in *.
  unfold float_mul_int. apply fmap_None, eq_None_not_Some.
  rewrite float_of_int_range. lia.
Qed.

(** A quantity beyond the floats makes [x.price * x.quantity] raise: the
    call ends there, before anything is written or cleared. *)
Lemma place_order_overflow clock cart orders :
  Exists (λ ci, float_int_bound ≤ Z.abs (CartItem.quantity ci)) cart →
  place_order clock cart orders = (Raise OverflowError, cart, orders).
Proof.
  intros Hcart. unfold place_order.
  rewrite (cart_sum_overflow cart Hcart). by destruct Hcart.
Qed.

(** C3. [place_order] on an empty cart replies [EMPTY]; the orders file
    and the cart are as they were. *)
Theorem place_order_empty clock orders :
  place_order clock [] orders = (Return EMPTY, [], orders).
Proof. reflexivity. Qed.

(** C2, amended. [place_order] on a non-empty cart all of whose quantities
    are within the floats (below [2^1024 - 2^970] in absolute value)
    appends exactly one record to the orders file.  The record's total is
    [round(sum of price * quantity over the lines, 2)], its id is
    [ORD-<unix seconds>], its items are the cart, its status is
    "received"; the reply is [PLACED] with the record's id and total; the
    cart is empty afterwards. *)
Theorem place_order_nonempty clock cart orders :
  cart ≠ [] →
  Forall (λ ci, Z.abs (CartItem.quantity ci) < float_int_bound) cart →
  ∃ new_order amounts,
    place_order clock cart orders =
      (Return (PLACED (Order.order_id new_order) (Order.total new_order)),
       [], orders ++ [new_order])
    ∧ line_amounts cart amounts
    ∧ Order.total new_order = round2 (float_sum amounts)
    ∧ Order.order_id new_order = "ORD-" +:+ str_of_int (unix_seconds clock)
    ∧ Order.timestamp new_order = isoformat clock
    ∧ Order.items new_order = cart
    ∧ Order.status new_order = "received".
Proof.
  intros Hne [total Htotal]%cart_sum_in_range.
  pose proof Htotal as (amounts & Hamounts & ->)%cart_sum_Some.
  unfold place_order. rewrite Htotal. destruct cart as [|ci cart]; [done|].
  eexists _, amounts. split_and!; [reflexivity|done..].
Qed.

(** C9, amended. With a catalog that has an entry named "milk" up to
    case: from an empty cart, [add_to_cart("Milk", 2)] and then
    [add_to_cart("milk", 1)] leave the single line whose name is the name
    of the first such entry as the catalog spells it, with quantity 3 and
    that entry's price; [place_order] then appends exactly one record,
    whose total is [round(price * 3, 2)], and empties the cart. *)
Theorem milk_example catalog clock orders :
  Exists (item_matches "milk") catalog →
  ∃ c1 x c2 three new_order,
    first_at (item_matches "milk") catalog c1 x c2
    ∧ float_of_int 3 = Some three
    ∧ let cart1 := (add_to_cart catalog [] "Milk" 2).2 in
      let cart2 := (add_to_cart catalog cart1 "milk" 1).2 in
      cart2 = [CartItem.mk (CatalogItem.name x) 3 (to_float (CatalogItem.price x))]
      ∧ place_order clock cart2 orders =
          (Return (PLACED (Order.order_id new_order) (Order.total new_order)),
           [], orders ++ [new_order])
      ∧ Order.total new_order =
          round2 (float_sum [float_mul (to_float (CatalogItem.price x)) three]).
Proof.
  intros (c1 & x & c2 & Hx)%(Exists_first_at _).
  destruct (proj2 (float_of_int_range 3)) as [three Hthree]; [by vm_compute|].
  exists c1, x, c2, three,
    (Order.mk ("ORD-" +:+ str_of_int (unix_seconds clock)) (isoformat clock)
       [CartItem.mk (CatalogItem.name x) 3 (to_float (CatalogItem.price x))]
       (round2 (float_sum [float_mul (to_float (CatalogItem.price x)) three]))
       "received").
  split; [done|]. split; [done|]. cbv zeta.
  rewrite (add_to_cart_ci_eq catalog [] "Milk" "milk" 2) by reflexivity.
  rewrite (add_to_cart_added catalog [] "milk" 2 c1 x c2 Hx) by constructor.
  simpl.
  rewrite (add_to_cart_updated catalog _ "milk" 1 [] (line_of x 2) []);
    [|by eapply first_at_Exists|split_and!; [done|constructor|apply Hx]].
  unfold restocked, line_of. simpl. change (2 + 1) with 3. split; [done|].
  unfold place_order, cart_sum. simpl. unfold float_mul_int. simpl.
  rewrite Hthree. simpl. split; reflexivity.
Qed.

End OrderProperties.

(** ** Properties of [ingredients_for] *)

Section Strings.

Lemma lower_app (a b : string) : lower (a +:+ b) = lower a +:+ lower b.
Proof. induction a as [|c a IH]; simpl; [done|]. by rewrite IH. Qed.

Lemma is_space_not_upper (c : ascii) : is_space c → is_upper c = false.
Proof. by destruct c as [[] [] [] [] [] [] [] []]. Qed.

Lemma lower_all_space (w : string) : all_space w → lower w = w.
Proof.
  induction w as [|c w IH]; simpl; [done|].
  intros [Hc Hw]%andb_True. unfold lower_char.
  by rewrite (is_space_not_upper c Hc), (IH Hw).
Qed.

Lemma lstrip_all_space_app (w s : string) :
  all_space w → lstrip (w +:+ s) = lstrip s.
Proof.
  induction w as [|c w IH]; simpl; [done|].
  intros [Hc Hw]%andb_True. destruct (is_space c); [by apply IH|done].
Qed.

Lemma lstrip_all_space (w : string) : all_space w → lstrip w = "".
Proof.
  induction w as [|c w IH]; simpl; [done|].
  intros [Hc Hw]%andb_True. destruct (is_space c); [by apply IH|done].
Qed.

Lemma rstrip_all_space (w : string) : all_space w → rstrip w = "".
Proof.
  induction w as [|c w IH]; simpl; [done|].
  intros [Hc Hw]%andb_True. rewrite (IH Hw). by destruct (is_space c).
Qed.

Lemma rstrip_app_all_space (s w : string) :
  all_space w → rstrip (s +:+ w) = rstrip s.
Proof.
  intros Hw. induction s as [|c s IH]; simpl.
  - by apply rstrip_all_space.
  - by rewrite IH.
Qed.

Lemma length_lstrip (s : string) : (String.length (lstrip s) ≤ String.length s)%nat.
Proof.
  induction s as [|c s IH]; simpl; [done|].
  destruct (is_space c); simpl; lia.
Qed.

Lemma lstrip_fixed_app (k s : string) :
  k ≠ "" → lstrip k = k → lstrip (k +:+ s) = k +:+ s.
Proof.
  destruct k as [|c k]; [done|]. intros _. simpl.
  destruct (is_space c); [|done].
  intros Hk. pose proof (length_lstrip k) as Hlen.
  rewrite Hk in Hlen. simpl in Hlen. lia.
Qed.

(** White space around a stripped string is what [strip] removes. *)
Lemma strip_padded (w1 k w2 : string) :
  all_space w1 → all_space w2 → lstrip k = k → rstrip k = k →
  strip (w1 +:+ k +:+ w2) = k.
Proof.
  intros Hw1 Hw2 Hl Hr. unfold strip.
  rewrite (lstrip_all_space_app w1 _ Hw1).
  destruct (decide (k = "")) as [->|Hk].
  - change ("" +:+ w2) with w2. by rewrite (lstrip_all_space w2 Hw2).
  - rewrite (lstrip_fixed_app k w2 Hk Hl).
    by rewrite (rstrip_app_all_space k w2 Hw2).
Qed.

Lemma RECIPES_Some (key : string) (ingredients : list string) :
  RECIPES !! key = Some ingredients →
  (key = "peanut butter sandwich" ∧ ingredients = ["bread"; "peanut butter"])
  ∨ (key = "pasta" ∧ ingredients = ["pasta"; "pasta sauce"])
  ∨ (key = "tea" ∧ ingredients = ["tea powder"; "milk"; "sugar"]).
Proof.
  unfold RECIPES. rewrite !lookup_insert_Some, lookup_singleton_Some.
  intros [[<- <-]|[_ [[<- <-]|[_ [<- <-]]]]]; [by left|right; by left|right; by right].
Qed.

Lemma RECIPES_keys_stripped (key : string) :
  is_Some (RECIPES !! key) → lstrip key = key ∧ rstrip key = key.
Proof.
  intros [ingredients [[-> _]|[[-> _]|[-> _]]]%RECIPES_Some]; by vm_compute.
Qed.

End Strings.

Section RecipeProperties.
Context `{PyNum}.
Implicit Types (cart : list CartItem.t).

(** C7. [ingredients_for(dish_name)] looks [dish_name], lowered and
    stripped of surrounding white space, up in the recipe table: the reply
    is [NO_RECIPE] when the table has no such key and the key's ingredient
    list, in order, when it has; so a dish of the table is found under any
    capitalisation and with any white space around it.  The cart is never
    changed.  In particular "pasta" gives [pasta; pasta sauce] (as text,
    ["ING|pasta|pasta sauce"]) and "sushi" gives [NO_RECIPE]. *)
Theorem ingredients_for_spec cart dish_name :
  (ingredients_for cart dish_name).2 = cart
  ∧ (RECIPES !! strip (lower dish_name) = None →
       (ingredients_for cart dish_name).1 = NO_RECIPE)
  ∧ (∀ ingredients,
       RECIPES !! strip (lower dish_name) = Some ingredients →
       (ingredients_for cart dish_name).1 = ING ingredients)
  ∧ (∀ key ingredients w1 w2,
       RECIPES !! key = Some ingredients →
       lower dish_name = key → all_space w1 → all_space w2 →
       (ingredients_for cart (w1 +:+ dish_name +:+ w2)).1 = ING ingredients)
  ∧ (ingredients_for cart "pasta").1 = ING ["pasta"; "pasta sauce"]
  ∧ (∀ repr, render repr (ingredients_for cart "pasta").1 = "ING|pasta|pasta sauce")
  ∧ (ingredients_for cart "sushi").1 = NO_RECIPE.
Proof.
  unfold ingredients_for. cbv zeta. split_and!.
  - by destruct (RECIPES !! _).
  - by intros ->.
  - by intros ingredients ->.
  - intros key ingredients w1 w2 Hkey Hdish Hw1 Hw2.
    destruct (RECIPES_keys_stripped key) as [Hl Hr]; [done|].
    rewrite !lower_app, (lower_all_space w1 Hw1), (lower_all_space w2 Hw2), Hdish.
    by rewrite (strip_padded w1 key w2 Hw1 Hw2 Hl Hr), Hkey.
  - by vm_compute.
  - intros repr. by vm_compute.
  - by vm_compute.
Qed.

End RecipeProperties.

(** ** The statements at work on [binary64] *)

Lemma add_to_cart_spec_witness :
  add_to_cart Demo.catalog Demo.cart "kiwi" 1 = (Return NOT_FOUND, Demo.cart)
  ∧ (∃ l1 ci l2,
       first_at (line_matches "MILK") Demo.cart l1 ci l2
       ∧ (add_to_cart Demo.catalog Demo.cart "MILK" 4).2 =
           l1 ++ CartItem.mk (CartItem.name ci) (CartItem.quantity ci + 4)
                   (CartItem.price ci) :: l2
       ∧ (printable (CartItem.quantity ci + 4) →
            (add_to_cart Demo.catalog Demo.cart "MILK" 4).1 =
              Return (UPDATED (CartItem.name ci) (CartItem.quantity ci + 4)))
       ∧ (¬ printable (CartItem.quantity ci + 4) →
            (add_to_cart Demo.catalog Demo.cart "MILK" 4).1 = Raise ValueError))
  ∧ (∃ c1 x c2,
       first_at (item_matches "eggs") Demo.catalog c1 x c2
       ∧ (add_to_cart Demo.catalog Demo.cart "eggs" 12).2 =
           Demo.cart ++ [CartItem.mk (CatalogItem.name x) 12
                           (to_float (CatalogItem.price x))]
       ∧ (printable 12 →
            (add_to_cart Demo.catalog Demo.cart "eggs" 12).1 =
              Return (ADDED (CatalogItem.name x) 12))
       ∧ (¬ printable 12 →
            (add_to_cart Demo.catalog Demo.cart "eggs" 12).1 = Raise ValueError)).
Proof.
  split_and!.
  - apply (proj1 (add_to_cart_spec Demo.catalog Demo.cart "kiwi" 1)).
    compute_done.
  - apply (proj2 (add_to_cart_spec Demo.catalog Demo.cart "MILK" 4));
      compute_done.
  - apply (proj2 (add_to_cart_spec Demo.catalog Demo.cart "eggs" 12));
      compute_done.
Defined.

(** C1 as stated fails on a quantity too long to print: the cart has one
    carton of milk, [add_to_cart("milk", 10**4300 - 1)] brings the line to
    [10**4300], and the f-string of the reply raises [ValueError]; no
    [UPDATED] comes back, and the line keeps its new quantity. *)
Lemma add_to_cart_spec_counterexample :
  Exists (item_matches "milk") Demo.catalog
  ∧ Exists (line_matches "milk") Demo.cart
  ∧ add_to_cart Demo.catalog Demo.cart "milk" (10 ^ 4300 - 1)
    = (Raise ValueError,
       [ CartItem.mk "Bread" 2 (B64.of_Z_exp 45 0);
         CartItem.mk "Milk" (1 + (10 ^ 4300 - 1)) (B64.of_Z_exp 30 0) ])
  ∧ ¬ (∃ name q,
         (add_to_cart Demo.catalog Demo.cart "milk" (10 ^ 4300 - 1)).1
         = Return (UPDATED name q)).
Proof.
  assert (Exists (item_matches "milk") Demo.catalog) as Hcat by compute_done.
  assert (Exists (line_matches "milk") Demo.cart) as Hline by compute_done.
  assert (add_to_cart Demo.catalog Demo.cart "milk" (10 ^ 4300 - 1)
          = (Raise ValueError,
             ([ @CartItem.mk binary64 "Bread" 2 (B64.of_Z_exp 45 0);
                @CartItem.mk binary64 "Milk" (1 + (10 ^ 4300 - 1)) (B64.of_Z_exp 30 0) ]
              : list CartItem.t)))
    as Heq.
  { rewrite (add_to_cart_updated (H:=binary64) Demo.catalog Demo.cart "milk" (10 ^ 4300 - 1)
               ([@CartItem.mk binary64 "Bread" 2 (B64.of_Z_exp 45 0)] : list CartItem.t)
               (@CartItem.mk binary64 "Milk" 1 (B64.of_Z_exp 30 0) : CartItem.t) [] Hcat).
    - rewrite formatted_unprintable; [done|].
      unfold printable. simpl CartItem.quantity. by vm_compute.
    - unfold first_at. split_and!; [reflexivity|compute_done|reflexivity]. }
  split_and!; [done..|]. rewrite Heq. by intros (? & ? & [=]).
Qed.

Lemma add_to_cart_any_quantity_witness :
  Exists (item_matches "eggs") Demo.catalog
  ∧ (Exists (line_matches "eggs") Demo.cart →
       ∃ l1 ci l2,
         first_at (line_matches "eggs") Demo.cart l1 ci l2
         ∧ (add_to_cart Demo.catalog Demo.cart "eggs" (-6)).2 =
             l1 ++ CartItem.mk (CartItem.name ci) (CartItem.quantity ci + -6)
                     (CartItem.price ci) :: l2
         ∧ (printable (CartItem.quantity ci + -6) →
              (add_to_cart Demo.catalog Demo.cart "eggs" (-6)).1 =
                Return (UPDATED (CartItem.name ci) (CartItem.quantity ci + -6))))
  ∧ (Forall (λ ci, ¬ line_matches "eggs" ci) Demo.cart →
       ∃ x, x ∈ Demo.catalog ∧ item_matches "eggs" x
         ∧ (add_to_cart Demo.catalog Demo.cart "eggs" (-6)).2 =
             Demo.cart ++ [CartItem.mk (CatalogItem.name x) (-6)
                             (to_float (CatalogItem.price x))]
         ∧ (printable (-6) →
              (add_to_cart Demo.catalog Demo.cart "eggs" (-6)).1 =
                Return (ADDED (CatalogItem.name x) (-6)))).
Proof.
  assert (Exists (item_matches "eggs") Demo.catalog) as Hcat by compute_done.
  split; [exact Hcat|].
  exact (add_to_cart_any_quantity Demo.catalog Demo.cart "eggs" (-6) Hcat).
Defined.

(** C8 as stated fails on a quantity too long to print:
    [add_to_cart("eggs", -10**4300)] appends the line and then raises
    [ValueError] in the f-string of its reply; the call does not come back
    with [ADDED] or [UPDATED]. *)
Lemma add_to_cart_any_quantity_counterexample :
  Exists (item_matches "eggs") Demo.catalog
  ∧ add_to_cart Demo.catalog Demo.cart "eggs" (- 10 ^ 4300)
    = (Raise ValueError,
       Demo.cart ++ [CartItem.mk "Eggs" (- 10 ^ 4300) (B64.of_Z_exp 13 (-1))])
  ∧ ¬ (∃ name q,
         (add_to_cart Demo.catalog Demo.cart "eggs" (- 10 ^ 4300)).1
         = Return (ADDED name q)
         ∨ (add_to_cart Demo.catalog Demo.cart "eggs" (- 10 ^ 4300)).1
           = Return (UPDATED name q)).
Proof.
  assert (Exists (item_matches "eggs") Demo.catalog) as Hcat by compute_done.
  assert (add_to_cart Demo.catalog Demo.cart "eggs" (- 10 ^ 4300)
          = (Raise ValueError,
             Demo.cart ++ [@CartItem.mk binary64 "Eggs" (- 10 ^ 4300) (B64.of_Z_exp 13 (-1))]))
    as Heq.
  { rewrite (add_to_cart_added (H:=binary64) Demo.catalog Demo.cart "eggs" (- 10 ^ 4300)
               ([ @CatalogItem.mk binary64 "Milk" (B64.of_Z_exp 30 0);
                  @CatalogItem.mk binary64 "Bread" (B64.of_Z_exp 45 0) ] : list CatalogItem.t)
               (@CatalogItem.mk binary64 "Eggs" (B64.of_Z_exp 13 (-1)) : CatalogItem.t) []).
    - rewrite formatted_unprintable; [done|]. unfold printable. by vm_compute.
    - unfold first_at. split_and!; [reflexivity|compute_done|reflexivity].
    - compute_done. }
  split_and!; [done..|]. rewrite Heq. by intros (? & ? & [[=]|[=]]).
Qed.

Lemma add_twice_sums_witness :
  let x := CatalogItem.mk "Eggs" (B64.of_Z_exp 13 (-1)) in
  x ∈ Demo.catalog
  ∧ ci_eq "EGGS" (CatalogItem.name x)
  ∧ ci_eq "eggs" (CatalogItem.name x)
  ∧ Forall (λ ci, ¬ line_matches (CatalogItem.name x) ci) Demo.cart
  ∧ ∃ ci,
      filter (line_matches (CatalogItem.name x))
        (add_to_cart Demo.catalog
           (add_to_cart Demo.catalog Demo.cart "EGGS" 6).2 "eggs" 12).2 = [ci]
      ∧ CartItem.quantity ci = 6 + 12.
Proof.
  cbv zeta.
  assert (CatalogItem.mk "Eggs" (B64.of_Z_exp 13 (-1)) ∈ Demo.catalog) as Hx.
  { unfold Demo.catalog. apply elem_of_cons. right.
    apply elem_of_cons. right. apply elem_of_cons. by left. }
  assert (ci_eq "EGGS" "Eggs") as Hn1 by reflexivity.
  assert (ci_eq "eggs" "Eggs") as Hn2 by reflexivity.
  assert (Forall (λ ci, ¬ line_matches "Eggs" ci) Demo.cart) as Hcart
    by compute_done.
  split_and!; try done.
  exact (add_twice_sums Demo.catalog Demo.cart _ "EGGS" "eggs" 6 12
           Hx Hn1 Hn2 Hcart).
Defined.

Lemma remove_from_cart_spec_witness :
  remove_from_cart Demo.cart "MILK" = (REMOVED, [CartItem.mk "Bread" 2 (B64.of_Z_exp 45 0)])
  ∧ remove_from_cart Demo.cart "eggs" = (NOT_FOUND, Demo.cart).
Proof.
  destruct (remove_from_cart_spec Demo.cart "MILK") as (Hcart & Hreply & _).
  destruct (remove_from_cart_spec Demo.cart "eggs") as (_ & _ & Habsent).
  split.
  - rewrite (surjective_pairing (remove_from_cart Demo.cart "MILK")).
    rewrite Hcart, Hreply; [reflexivity|compute_done].
  - apply Habsent. compute_done.
Defined.

Lemma place_order_nonempty_witness :
  Demo.cart ≠ []
  ∧ Forall (λ ci, Z.abs (CartItem.quantity ci) < float_int_bound) Demo.cart
  ∧ ∃ new_order amounts,
      place_order Demo.clock Demo.cart [] =
        (Return (PLACED (Order.order_id new_order) (Order.total new_order)),
         [], [] ++ [new_order])
      ∧ line_amounts Demo.cart amounts
      ∧ Order.total new_order = round2 (float_sum amounts)
      ∧ Order.order_id new_order = "ORD-" +:+ str_of_int (unix_seconds Demo.clock)
      ∧ Order.timestamp new_order = isoformat Demo.clock
      ∧ Order.items new_order = Demo.cart
      ∧ Order.status new_order = "received".
Proof.
  assert (Demo.cart ≠ []) as Hne by done.
  assert (Forall (λ ci, Z.abs (CartItem.quantity ci) < float_int_bound) Demo.cart)
    as Hrange by (repeat constructor).
  split_and!; try done.
  exact (place_order_nonempty Demo.clock Demo.cart [] Hne Hrange).
Defined.

(** C2 as stated fails on a quantity the floats do not reach:
    [add_to_cart("milk", 2**1024)] is accepted, and [place_order] then
    raises [OverflowError] in [x.price * x.quantity]; no record is
    appended and the cart keeps its line. *)
Lemma place_order_nonempty_counterexample :
  let cart := (add_to_cart Demo.catalog [] "milk" (2 ^ 1024)).2 in
  cart = [CartItem.mk "Milk" (2 ^ 1024) (B64.of_Z_exp 30 0)]
  ∧ cart ≠ []
  ∧ place_order Demo.clock cart [] = (Raise OverflowError, cart, [])
  ∧ ¬ (∃ new_order, (place_order Demo.clock cart []).2 = [] ++ [new_order])
  ∧ (place_order Demo.clock cart []).1.2 ≠ [].
Proof.
  cbv zeta.
  assert ((add_to_cart Demo.catalog [] "milk" (2 ^ 1024)).2
          = [CartItem.mk "Milk" (2 ^ 1024) (B64.of_Z_exp 30 0)]) as -> by reflexivity.
  assert (place_order Demo.clock
            [CartItem.mk "Milk" (2 ^ 1024) (B64.of_Z_exp 30 0)] []
          = (Raise OverflowError,
             [CartItem.mk "Milk" (2 ^ 1024) (B64.of_Z_exp 30 0)], [])) as ->.
  { apply place_order_overflow. left. by vm_compute. }
  split_and!; try done. by intros [? ?].
Qed.

Lemma milk_example_witness :
  Exists (item_matches "milk") Demo.catalog
  ∧ ∃ c1 x c2 three new_order,
      first_at (item_matches "milk") Demo.catalog c1 x c2
      ∧ float_of_int 3 = Some three
      ∧ (add_to_cart Demo.catalog (add_to_cart Demo.catalog [] "Milk" 2).2 "milk" 1).2
        = [CartItem.mk (CatalogItem.name x) 3 (to_float (CatalogItem.price x))]
      ∧ place_order Demo.clock
          (add_to_cart Demo.catalog (add_to_cart Demo.catalog [] "Milk" 2).2 "milk" 1).2
          [] =
          (Return (PLACED (Order.order_id new_order) (Order.total new_order)),
           [], [] ++ [new_order])
      ∧ Order.total new_order =
          round2 (float_sum [float_mul (to_float (CatalogItem.price x)) three]).
Proof.
  assert (Exists (item_matches "milk") Demo.catalog) as Hcat by compute_done.
  split; [done|].
  exact (milk_example Demo.catalog Demo.clock [] Hcat).
Defined.

(** C9 as stated fails on a catalog that spells the item "milk" and
    prices it at 0.125: the line is named "milk", as the catalog has it,
    not "Milk" as the caller said it; and the record's total is
    [round(0.375, 2) = 0.38], not [3 * 0.125 = 0.375]. *)
Lemma milk_example_counterexample :
  let price := B64.of_Z_exp 1 (-3) in
  let cart1 := (add_to_cart Demo.eighth_catalog [] "Milk" 2).2 in
  let cart2 := (add_to_cart Demo.eighth_catalog cart1 "milk" 1).2 in
  Exists (item_matches "milk") Demo.eighth_catalog
  ∧ cart2 = [CartItem.mk "milk" 3 price]
  ∧ cart2 ≠ [CartItem.mk "Milk" 3 price]
  ∧ place_order Demo.clock cart2 [] =
      (Return (PLACED "ORD-1764230400" (B64.div (B64.of_Z_exp 38 0) (B64.of_Z_exp 100 0))),
       [],
       [Order.mk "ORD-1764230400" "2025-11-27T08:00:00.000000"
          [CartItem.mk "milk" 3 price]
          (B64.div (B64.of_Z_exp 38 0) (B64.of_Z_exp 100 0)) "received"])
  ∧ B64.div (B64.of_Z_exp 38 0) (B64.of_Z_exp 100 0)
    ≠ B64.mul price (B64.of_Z_exp 3 0).
Proof.
  cbv zeta.
  assert ((add_to_cart Demo.eighth_catalog
             (add_to_cart Demo.eighth_catalog [] "Milk" 2).2 "milk" 1).2
          = [CartItem.mk "milk" 3 (B64.of_Z_exp 1 (-3))]) as -> by reflexivity.
  split_and!.
  - compute_done.
  - reflexivity.
  - discriminate.
  - reflexivity.
  - vm_compute. discriminate.
Qed.

Lemma ingredients_for_spec_witness :
  (ingredients_for Demo.cart "  Peanut Butter SANDWICH ").1
    = ING ["bread"; "peanut butter"]
  ∧ (ingredients_for Demo.cart "pasta").1 = ING ["pasta"; "pasta sauce"]
  ∧ (ingredients_for Demo.cart "sushi").1 = NO_RECIPE
  ∧ (ingredients_for Demo.cart "TEA").2 = Demo.cart.
Proof.
  destruct (ingredients_for_spec Demo.cart "Peanut Butter SANDWICH")
    as (_ & _ & _ & Hpad & Hpasta & _ & Hsushi).
  split_and!.
  - apply (Hpad "peanut butter sandwich" _ "  " " "); by vm_compute.
  - exact Hpasta.
  - exact Hsushi.
  - apply (ingredients_for_spec Demo.cart "TEA").
Defined.

(** ** How the cart tools compose *)

Section CartComposition.
Context `{PyNum}.
Implicit Types (catalog : list CatalogItem.t) (cart : list CartItem.t).
Implicit Types (x : CatalogItem.t) (ci : CartItem.t) (quantity : Z).

Lemma remove_from_cart_ci_eq cart n m :
  ci_eq n m → remove_from_cart cart n = remove_from_cart cart m.
Proof. unfold ci_eq, remove_from_cart. by intros ->. Qed.

Lemma line_matches_ci_eq n m ci :
  ci_eq n m → line_matches n ci ↔ line_matches m ci.
Proof. unfold line_matches, ci_eq. by intros ->. Qed.

Lemma remove_from_cart_eq cart item_name :
  remove_from_cart cart item_name =
    (if decide (Exists (line_matches item_name) cart) then REMOVED else NOT_FOUND,
     filter (λ ci, ¬ line_matches item_name ci) cart).
Proof.
  unfold remove_from_cart. cbv zeta.
  change (filter _ cart) with (filter (λ ci, ¬ line_matches item_name ci) cart).
  f_equal. destruct (decide (Exists _ cart)) as [Hex|Hno].
  - apply Exists_exists in Hex as (ci & Hci & Hm).
    rewrite decide_True; [done|].
    apply (length_filter_lt _ _ ci); [done|]. by intros Hne.
  - rewrite filter_all, decide_False; [done|lia|].
    apply Forall_forall. intros ci Hci Hm. apply Hno, Exists_exists. by exists ci.
Qed.

Lemma add_to_cart_others catalog cart item_name quantity :
  filter (λ ci, ¬ line_matches item_name ci)
    (add_to_cart catalog cart item_name quantity).2
  = filter (λ ci, ¬ line_matches item_name ci) cart.
Proof.
  destruct (add_to_cart_cases catalog cart item_name quantity)
    as [[_ ->]|[(l1 & ci & l2 & (-> & _ & Hci) & ->)
               |(c1 & x & c2 & (_ & _ & Hx) & _ & ->)]]; simpl.
  - done.
  - rewrite !filter_app, !filter_cons_False; [done| |]; by intros Hn; apply Hn.
  - rewrite filter_app, filter_cons_False, filter_nil, app_nil_r; [done|].
    intros Hn. by apply Hn.
Qed.

(** X5. [add_to_cart] touches at most the lines of the name it is given:
    the other lines stay as they were and in their order, and the cart
    never gets shorter and grows by one line at most. *)
Theorem add_to_cart_frame catalog cart item_name quantity :
  filter (λ ci, ¬ line_matches item_name ci)
    (add_to_cart catalog cart item_name quantity).2
  = filter (λ ci, ¬ line_matches item_name ci) cart
  ∧ (length cart ≤ length (add_to_cart catalog cart item_name quantity).2
     ≤ length cart + 1)%nat.
Proof.
  split; [apply add_to_cart_others|].
  destruct (add_to_cart_cases catalog cart item_name quantity)
    as [[_ ->]|[(l1 & ci & l2 & (-> & _ & _) & ->)
               |(c1 & x & c2 & _ & _ & ->)]]; simpl.
  - lia.
  - rewrite !length_app. simpl. lia.
  - rewrite length_app. simpl. lia.
Qed.

(** X6. Removing an item right after adding it, under any capitalisations,
    replies [REMOVED] and leaves the cart that was there before the add
    without its lines for that item: for a cart that had none, the cart
    itself. *)
Theorem add_then_remove catalog cart n m quantity :
  ci_eq n m →
  Exists (item_matches n) catalog →
  remove_from_cart (add_to_cart catalog cart n quantity).2 m
  = (REMOVED, filter (λ ci, ¬ line_matches n ci) cart)
  ∧ (Forall (λ ci, ¬ line_matches n ci) cart →
       remove_from_cart (add_to_cart catalog cart n quantity).2 m = (REMOVED, cart)).
Proof.
  intros Hnm Hcat.
  assert (remove_from_cart (add_to_cart catalog cart n quantity).2 m
          = (REMOVED, filter (λ ci, ¬ line_matches n ci) cart)) as Heq.
  { rewrite <-(remove_from_cart_ci_eq _ n m Hnm), remove_from_cart_eq.
    rewrite (add_to_cart_others catalog cart n quantity).
    rewrite decide_True; [done|].
    destruct (add_to_cart_cases catalog cart n quantity)
      as [[Hnone _]|[(l1 & ci & l2 & (-> & _ & Hci) & ->)
                    |(c1 & x & c2 & (_ & _ & Hx) & _ & ->)]]; simpl.
    - apply Exists_exists in Hcat as (x & Hx & Hm).
      by eapply Forall_forall in Hnone.
    - apply Exists_app. right. by left.
    - apply Exists_app. right. by left. }
  split; [done|]. intros Hcart. by rewrite Heq, filter_all.
Qed.

(** X7. After [remove_from_cart(item_name)] the cart has no line of that
    name, however many it had, so removing the item again, under any
    capitalisation, replies [NOT_FOUND] and changes nothing. *)
Theorem remove_twice cart n m :
  ci_eq n m →
  Forall (λ ci, ¬ line_matches n ci) (remove_from_cart cart n).2
  ∧ remove_from_cart (remove_from_cart cart n).2 m
    = (NOT_FOUND, (remove_from_cart cart n).2).
Proof.
  intros Hnm.
  assert (Forall (λ ci, ¬ line_matches n ci) (remove_from_cart cart n).2) as Hgone.
  { rewrite remove_from_cart_eq. simpl.
    apply Forall_forall. by intros ci [Hci _]%list_elem_of_filter. }
  split; [done|].
  rewrite <-(remove_from_cart_ci_eq _ n m Hnm).
  rewrite (remove_from_cart_eq (remove_from_cart cart n).2 n).
  rewrite (filter_all _ _ Hgone), decide_False; [done|].
  intros (ci & Hci & Hm)%Exists_exists. by eapply Forall_forall in Hgone.
Qed.

(** X8. Adding an item again after removing it starts a new line: the
    line goes to the end of the cart, with exactly the quantity given and
    the name and price of the catalog as it is now; nothing of the removed
    line is kept.  The reply is [ADDED] when the quantity has at most 4300
    decimal digits; beyond that the call raises [ValueError], the line
    already appended. *)
Theorem remove_then_add catalog cart n m quantity c1 x c2 :
  ci_eq n m →
  first_at (item_matches m) catalog c1 x c2 →
  (add_to_cart catalog (remove_from_cart cart n).2 m quantity).2
  = filter (λ ci, ¬ line_matches n ci) cart
    ++ [CartItem.mk (CatalogItem.name x) quantity
          (to_float (CatalogItem.price x))]
  ∧ (printable quantity →
       (add_to_cart catalog (remove_from_cart cart n).2 m quantity).1
       = Return (ADDED (CatalogItem.name x) quantity))
  ∧ (¬ printable quantity →
       (add_to_cart catalog (remove_from_cart cart n).2 m quantity).1
       = Raise ValueError).
Proof.
  intros Hnm Hx.
  rewrite (add_to_cart_added catalog _ m quantity c1 x c2 Hx).
  - rewrite remove_from_cart_eq. simpl.
    split_and!; [done|apply formatted_printable|apply formatted_unprintable].
  - rewrite remove_from_cart_eq. simpl.
    apply Forall_forall. intros ci [Hci _]%list_elem_of_filter.
    by rewrite <-(line_matches_ci_eq n m ci Hnm).
Qed.

(** X9. A line keeps the name and the price it got when it was created:
    the catalog is read again on every call, but a second
    [add_to_cart] of the item only adds to the quantity, whatever the
    catalog spells or charges by then.  The second call replies [UPDATED]
    with the sum when the sum has at most 4300 decimal digits, and raises
    [ValueError] beyond that, the line already updated. *)
Theorem price_fixed_at_first_add catalog1 catalog2 cart n1 n2 q1 q2 c1 x c2 :
  first_at (item_matches n1) catalog1 c1 x c2 →
  ci_eq n2 n1 →
  Exists (item_matches n2) catalog2 →
  Forall (λ ci, ¬ line_matches n1 ci) cart →
  (add_to_cart catalog2 (add_to_cart catalog1 cart n1 q1).2 n2 q2).2
  = cart ++ [CartItem.mk (CatalogItem.name x) (q1 + q2)
               (to_float (CatalogItem.price x))]
  ∧ (printable (q1 + q2) →
       (add_to_cart catalog2 (add_to_cart catalog1 cart n1 q1).2 n2 q2).1
       = Return (UPDATED (CatalogItem.name x) (q1 + q2)))
  ∧ (¬ printable (q1 + q2) →
       (add_to_cart catalog2 (add_to_cart catalog1 cart n1 q1).2 n2 q2).1
       = Raise ValueError).
Proof.
  intros Hx Hn Hcat2 Hcart.
  rewrite (add_to_cart_added catalog1 cart n1 q1 c1 x c2 Hx Hcart). simpl.
  rewrite (add_to_cart_updated catalog2 _ n2 q2 cart (line_of x q1) []); [|done|].
  - simpl. split_and!; [done|apply formatted_printable|apply formatted_unprintable].
  - unfold first_at. split_and!; [done| |].
    + eapply Forall_impl; [done|]. intros ci Hci.
      by rewrite (line_matches_ci_eq n2 n1 ci Hn).
    + apply (line_matches_ci_eq n2 n1 _ Hn), Hx.
Qed.





End CartComposition.

(** ** The cart as a dictionary *)

Section CartDictionary.
Context `{PyNum}.
Implicit Types (catalog : list CatalogItem.t) (cart : list CartItem.t).
Implicit Types (ci : CartItem.t) (k : string).

Lemma quantities_cons ci cart :
  quantities (ci :: cart)
  = <[lower (CartItem.name ci) := CartItem.quantity ci]> (quantities cart).
Proof. done. Qed.

Lemma quantities_lookup_none cart k :
  Forall (λ ci, lower (CartItem.name ci) ≠ k) cart → quantities cart !! k = None.
Proof.
  induction 1 as [|ci cart Hci _ IH]; [done|].
  by rewrite quantities_cons, lookup_insert_ne.
Qed.

Lemma quantities_lookup_first l1 ci l2 k :
  Forall (λ c, lower (CartItem.name c) ≠ k) l1 →
  lower (CartItem.name ci) = k →
  quantities (l1 ++ ci :: l2) !! k = Some (CartItem.quantity ci).
Proof.
  intros Hl1 <-. induction Hl1 as [|c l1 Hc _ IH]; simpl.
  - by rewrite quantities_cons, lookup_insert_eq.
  - by rewrite quantities_cons, lookup_insert_ne.
Qed.

Lemma quantities_restocked l1 ci l2 quantity :
  Forall (λ c, lower (CartItem.name c) ≠ lower (CartItem.name ci)) l1 →
  quantities (l1 ++ restocked ci quantity :: l2)
  = <[lower (CartItem.name ci) := CartItem.quantity ci + quantity]>
      (quantities (l1 ++ ci :: l2)).
Proof.
  induction 1 as [|c l1 Hc _ IH]; simpl.
  - rewrite !quantities_cons. simpl. by rewrite insert_insert_eq.
  - rewrite !quantities_cons, IH. by apply insert_insert_ne.
Qed.

Lemma quantities_snoc cart ci :
  Forall (λ c, lower (CartItem.name c) ≠ lower (CartItem.name ci)) cart →
  quantities (cart ++ [ci])
  = <[lower (CartItem.name ci) := CartItem.quantity ci]> (quantities cart).
Proof.
  induction 1 as [|c cart Hc _ IH]; simpl; [done|].
  rewrite !quantities_cons, IH. by apply insert_insert_ne.
Qed.

Lemma quantities_filter cart k :
  quantities (filter (λ ci, lower (CartItem.name ci) ≠ k) cart)
  = delete k (quantities cart).
Proof.
  induction cart as [|ci cart IH]; simpl.
  - symmetry. apply delete_empty.
  - rewrite filter_cons. case_decide as Hci.
    + by rewrite !quantities_cons, IH, delete_insert_ne.
    + subst k. by rewrite quantities_cons, IH, delete_insert_eq.
Qed.

Lemma cart_step_quantities catalog cart (c : cart_call) :
  quantities (cart_step catalog cart c).2 = dict_step catalog (quantities cart) c.
Proof.
  destruct c as [item_name quantity|item_name]; simpl.
  - case_decide as Hcat.
    + destruct (first_at_or_none (line_matches item_name) cart)
        as [Hcart|(l1 & ci & l2 & Hci)].
      * apply (Exists_first_at _) in Hcat as (c1 & x & c2 & Hx).
        rewrite (add_to_cart_added catalog cart item_name quantity c1 x c2 Hx Hcart).
        simpl. destruct Hx as (_ & _ & Hx).
        rewrite quantities_snoc; simpl; rewrite Hx; [|done].
        by rewrite (quantities_lookup_none cart (lower item_name) Hcart).
      * rewrite (add_to_cart_updated catalog cart item_name quantity l1 ci l2 Hcat Hci).
        simpl. destruct Hci as (-> & Hl1 & Hci).
        rewrite (quantities_lookup_first l1 ci l2 (lower item_name) Hl1 Hci). simpl.
        rewrite <-Hci. apply quantities_restocked. by rewrite Hci.
    + rewrite add_to_cart_not_found; [done|].
      apply Forall_forall. intros x Hx Hm. apply Hcat, Exists_exists. by exists x.
  - apply quantities_filter.
Qed.

(** X10. Read by lowered name, the cart is a dictionary of quantities, and
    a sequence of [add_to_cart] and [remove_from_cart] calls acts on it as
    on a dictionary: an add of an item the catalog has adds the quantity
    to the entry of the name (from 0 when there is none), an add of an
    unknown item does nothing, a remove deletes the entry. *)
Theorem cart_quantities catalog cart (calls : list cart_call) :
  quantities (run_cart catalog cart calls)
  = foldl (dict_step catalog) (quantities cart) calls.
Proof.
  unfold run_cart. revert cart.
  induction calls as [|c calls IH]; intros cart; simpl; [done|].
  by rewrite IH, cart_step_quantities.
Qed.

End CartDictionary.

(** ** What [place_order] does to the orders file *)

Section OrderComposition.
Context `{PyNum}.
Implicit Types (catalog : list CatalogItem.t) (cart : list CartItem.t).
Implicit Types (orders : list Order.t) (clock : Clock) (s : State.t).

Lemma to_int_proper (n : Z) :
  Z.to_int n ≠ Decimal.Pos Decimal.Nil ∧ Z.to_int n ≠ Decimal.Neg Decimal.Nil.
Proof.
  destruct n as [|p|p]; simpl; split; try discriminate;
    intros [= Hp]; by apply (DecimalPos.Unsigned.to_uint_nonnil p).
Qed.

(** [str] of an [int] can be read back. *)
Lemma str_of_int_inj (a b : Z) : str_of_int a = str_of_int b → a = b.
Proof.
  unfold str_of_int. intros Heq.
  destruct (to_int_proper a) as [Ha1 Ha2], (to_int_proper b) as [Hb1 Hb2].
  pose proof (NilZero.isi (Z.to_int a) Ha1 Ha2) as Hia.
  pose proof (NilZero.isi (Z.to_int b) Hb1 Hb2) as Hib.
  rewrite Heq, Hib in Hia. injection Hia as Hab.
  by rewrite <-(DecimalZ.of_to a), <-(DecimalZ.of_to b), Hab.
Qed.

Lemma too_large_or_not cart :
  Exists too_large cart
  ∨ Forall (λ ci, Z.abs (CartItem.quantity ci) < float_int_bound) cart.
Proof.
  induction cart as [|ci cart [IH|IH]].
  - right. constructor.
  - left. by right.
  - destruct (decide (too_large ci)) as [Hci|Hci].
    + left. by left.
    + right. constructor; [|done]. unfold too_large in Hci. lia.
Qed.

Lemma place_order_placed clock cart orders :
  cart ≠ [] →
  Forall (λ ci, Z.abs (CartItem.quantity ci) < float_int_bound) cart →
  ∃ total amounts,
    line_amounts cart amounts ∧ total = round2 (float_sum amounts)
    ∧ place_order clock cart orders =
        (Return (PLACED ("ORD-" +:+ str_of_int (unix_seconds clock)) total), [],
         orders ++ [Order.mk ("ORD-" +:+ str_of_int (unix_seconds clock))
                      (isoformat clock) cart total "received"]).
Proof.
  intros Hne [sum Hsum]%cart_sum_in_range.
  pose proof Hsum as (amounts & Hamounts & ->)%cart_sum_Some.
  exists (round2 (float_sum amounts)), amounts. split_and!; [done..|].
  unfold place_order. rewrite Hsum. by destruct cart.
Qed.

(** X2. The three ways [place_order] ends.  It raises [OverflowError]
    exactly when a line's quantity does not convert to a float, and then
    neither the cart nor the orders file is touched; it replies [EMPTY]
    exactly on the empty cart, with the same effect; in the remaining
    case, and only then, it replies [PLACED], appends one record and
    empties the cart. *)
Theorem place_order_outcomes clock cart orders :
  (Exists too_large cart
     ↔ place_order clock cart orders = (Raise OverflowError, cart, orders))
  ∧ (cart = [] ↔ place_order clock cart orders = (Return EMPTY, cart, orders))
  ∧ (cart ≠ [] ∧ Forall (λ ci, ¬ too_large ci) cart
     ↔ ∃ id total record,
         place_order clock cart orders =
           (Return (PLACED id total), [], orders ++ [record])).
Proof.
  destruct cart as [|ci cart].
  { simpl. split_and!.
    - split; [by intros ?%Exists_nil|done].
    - done.
    - split; [by intros [? _]|by intros (? & ? & ? & [=])]. }
  destruct (too_large_or_not (ci :: cart)) as [Hbig|Hok].
  - rewrite (place_order_overflow clock _ orders Hbig). split_and!.
    + done.
    + by split.
    + split; [|by intros (? & ? & ? & [=])].
      intros [_ Hall]. apply Exists_exists in Hbig as (c & Hc & Hl).
      by eapply Forall_forall in Hall.
  - destruct (place_order_placed clock (ci :: cart) orders) as
      (total & amounts & _ & _ & ->); [done..|].
    split_and!.
    + split; [|by intros [=]].
      intros (c & Hc & Hl)%Exists_exists.
      eapply Forall_forall in Hok; [|done]. unfold too_large in Hl. lia.
    + by split.
    + split; [intros _; by eexists _, _, _|].
      intros _. split; [done|].
      eapply Forall_impl; [done|]. intros c Hc. unfold too_large. simpl in *. lia.
Qed.

(** X4. Two placed orders have the same id exactly when they were placed
    within the same second of the clock: the id is made of the whole
    seconds and nothing else. *)
Theorem order_id_same_second clock1 clock2 cart1 cart2 orders1 orders2
    id1 id2 total1 total2 cart1' cart2' orders1' orders2' :
  place_order clock1 cart1 orders1 = (Return (PLACED id1 total1), cart1', orders1') →
  place_order clock2 cart2 orders2 = (Return (PLACED id2 total2), cart2', orders2') →
  id1 = id2 ↔ unix_seconds clock1 = unix_seconds clock2.
Proof.
  unfold place_order. intros H1 H2.
  destruct cart1; [done|]. destruct cart2; [done|].
  destruct (cart_sum _); [|done]. destruct (cart_sum _); [|done].
  simpl in *. injection H1 as <- _ _ _. injection H2 as <- _ _ _.
  split; [|by intros ->].
  intros Heq. apply str_of_int_inj. by simplify_eq.
Qed.

Lemma run_cons catalog s (c : call) (calls : list call) :
  run catalog s (c :: calls) = run catalog (step catalog s c).2 calls.
Proof. done. Qed.

Lemma run_place_orders_empty catalog orders (clocks : list Clock) :
  run catalog (State.mk [] orders) (PlaceOrder <$> clocks) = State.mk [] orders.
Proof.
  induction clocks as [|clock clocks IH]; [done|].
  by rewrite fmap_cons, run_cons.
Qed.

(** X3. Calling [place_order] again and again does not repeat an order:
    a run of [place_order] calls, however long, leaves the orders file as
    it was or with one record more. *)
Theorem place_order_repeated catalog s (clocks : list Clock) :
  State.orders (run catalog s (PlaceOrder <$> clocks)) = State.orders s
  ∨ ∃ record,
      State.orders (run catalog s (PlaceOrder <$> clocks)) = State.orders s ++ [record].
Proof.
  destruct s as [cart orders].
  induction clocks as [|clock clocks IH]; [by left|].
  rewrite fmap_cons, run_cons. unfold step.
  change (State.cart (State.mk cart orders)) with cart.
  change (State.orders (State.mk cart orders)) with orders.
  destruct cart as [|ci cart]; [exact IH|].
  destruct (too_large_or_not (ci :: cart)) as [Hbig|Hok].
  - rewrite (place_order_overflow clock _ orders Hbig). exact IH.
  - destruct (place_order_placed clock (ci :: cart) orders) as
      (total & amounts & _ & _ & ->); [done..|].
    right. eexists. cbv beta iota. unfold snd.
    by rewrite run_place_orders_empty.
Qed.

(** Sessions keep an invariant of the cart in the records they write. *)
Lemma run_records (I : list CartItem.t → Prop) catalog :
  I [] →
  (∀ cart (c : cart_call), I cart → I (cart_step catalog cart c).2) →
  ∀ (calls : list call) s,
    I (State.cart s) →
    ∃ new,
      State.orders (run catalog s calls) = State.orders s ++ new
      ∧ Forall (λ o, placed_record o ∧ I (Order.items o)) new
      ∧ (length new ≤ length (filter (λ c, is_place_order c) calls))%nat.
Proof.
  intros Hnil Hstep calls.
  induction calls as [|c calls IH]; intros [cart orders] Hs; simpl in *.
  { exists []. by rewrite app_nil_r. }
  destruct c as [c|clock]; simpl.
  - destruct (cart_step catalog cart c) as [r cart'] eqn:Hc.
    destruct (IH (State.mk cart' orders)) as (new & Hnew & Hall & Hlen).
    { simpl. pose proof (Hstep cart c Hs) as Hcart'. by rewrite Hc in Hcart'. }
    exists new. split_and!; try done.
  - destruct cart as [|ci cart].
    { destruct (IH (State.mk [] orders) Hs) as (new & Hnew & Hall & Hlen).
      exists new. split_and!; [done..|lia]. }
    destruct (too_large_or_not (ci :: cart)) as [Hbig|Hok].
    + rewrite (place_order_overflow clock _ orders Hbig).
      destruct (IH (State.mk (ci :: cart) orders) Hs) as (new & Hnew & Hall & Hlen).
      exists new. split_and!; [done..|lia].
    + destruct (place_order_placed clock (ci :: cart) orders) as
        (total & amounts & Hamounts & -> & ->); [done..|].
      destruct (IH (State.mk [] (orders ++
                  [Order.mk ("ORD-" +:+ str_of_int (unix_seconds clock))
                     (isoformat clock) (ci :: cart)
                     (round2 (float_sum amounts)) "received"])) Hnil)
        as (new & Hnew & Hall & Hlen).
      eexists (_ :: new). simpl in *. split_and!.
      * by rewrite Hnew, <-app_assoc.
      * constructor; [|done]. split; [|done].
        split_and!; [done..|]. by exists amounts.
      * lia.
Qed.

(** X1. Sessions only append to the orders file: after any sequence of
    calls the file is what it was followed by new records, at most one for
    each [place_order] call; every new record has lines, the status
    "received", and a total that is the rounded sum of its own lines. *)
Theorem ledger_append_only catalog s (calls : list call) :
  ∃ new,
    State.orders (run catalog s calls) = State.orders s ++ new
    ∧ Forall placed_record new
    ∧ (length new ≤ length (filter (λ c, is_place_order c) calls))%nat.
Proof.
  destruct (run_records (λ _, True) catalog I (λ _ _ _, I) calls s I)
    as (new & Hnew & Hall & Hlen).
  exists new. split_and!; [done| |done].
  eapply Forall_impl; [done|]. by intros o [? _].
Qed.

(** X11. The records a session writes are carts of that session: in every
    record appended after a fresh start, no two lines have the same name
    up to case, and every line has the name and the price of an entry of
    the catalog. *)
Theorem session_orders_sound catalog orders (calls : list call) :
  ∃ new,
    State.orders (run catalog (fresh orders) calls) = orders ++ new
    ∧ Forall (λ o, NoDup (lowered_names (Order.items o))
                   ∧ Forall (from_catalog catalog) (Order.items o)) new.
Proof.
  destruct (run_records
              (λ cart, NoDup (lowered_names cart) ∧ Forall (from_catalog catalog) cart)
              catalog) with (calls := calls) (s := fresh orders)
    as (new & Hnew & Hall & _).
  - split; constructor.
  - intros cart c [Hdup Hcat]. split; [|by apply cart_step_from_catalog].
    destruct c as [item_name quantity|item_name]; simpl.
    + by apply add_to_cart_names_unique.
    + by apply remove_from_cart_names_unique.
  - split; constructor.
  - exists new. split; [done|].
    eapply Forall_impl; [done|]. by intros o [_ ?].
Qed.

End OrderComposition.

(** ** The files: start-up and the tools on them *)

Section FileProperties.
Context `{PyNum}.
Implicit Types (catalog : list CatalogItem.t) (cart : list CartItem.t).
Implicit Types (orders : list Order.t) (clock : Clock) (fs : Files.t).

(** X13. Start-up asks only whether the files exist.  It fails, and then
    with [FileNotFoundError], exactly when [catalog.json] is missing, and
    creates nothing then.  When it succeeds the catalog file is untouched,
    an orders file that was there is kept as it is, whatever it holds, and
    a missing one is created holding the empty list; both files exist
    afterwards, and loading either gives what loading it before start-up
    gave, or the empty list from the file just created.  Starting again
    changes nothing more. *)
Theorem startup_spec fs :
  (startup fs = inl FileNotFoundError ↔ Files.catalog fs = None)
  ∧ (∀ e, startup fs = inl e → e = FileNotFoundError)
  ∧ ∀ fs', startup fs = inr fs' →
      Files.catalog fs' = Files.catalog fs
      ∧ Files.orders fs'
        = Some (default (Json (OrderList [])) (Files.orders fs))
      ∧ files_exist fs'
      ∧ load_catalog fs' = load_catalog fs
      ∧ (Files.orders fs = None → load_orders fs' = inr (OrderList []))
      ∧ (Files.orders fs ≠ None → load_orders fs' = load_orders fs)
      ∧ startup fs' = inr fs'.
Proof.
  destruct fs as [[catalog|] [orders|]]; unfold startup, load_catalog, load_orders,
    files_exist; simpl.
  - split; [by split|]. split; [by intros e [=]|]. intros fs' [= <-]. simpl.
    split_and!; by eauto.
  - split; [by split|]. split; [by intros e [=]|]. intros fs' [= <-]. simpl.
    split_and!; by eauto.
  - split; [by split|]. split; [by intros e [= <-]|]. by intros fs' [=].
  - split; [by split|]. split; [by intros e [= <-]|]. by intros fs' [=].
Qed.

Lemma place_order_io_present clock cart (file : option (content (list CatalogItem.t)))
    orders :
  place_order_io clock cart (Files.mk file (Some (Json (OrderList orders))))
  = (Done (place_order clock cart orders).1.1,
     (place_order clock cart orders).1.2,
     Files.mk file (Some (Json (OrderList (place_order clock cart orders).2)))).
Proof.
  unfold place_order_io, place_order. destruct cart as [|ci cart]; [done|].
  by destruct (cart_sum _).
Qed.

Lemma io_step_present catalog orders cart (c : call) :
  io_step (World.mk cart (Files.mk (Some (Json catalog))
                            (Some (Json (OrderList orders))))) c
  = (Done (step catalog (State.mk cart orders) c).1,
     World.mk (State.cart (step catalog (State.mk cart orders) c).2)
       (Files.mk (Some (Json catalog))
          (Some (Json (OrderList
             (State.orders (step catalog (State.mk cart orders) c).2)))))).
Proof.
  destruct c as [[item_name quantity|item_name]|clock]; simpl.
  - unfold add_to_cart_io. simpl. by destruct (add_to_cart _ _ _ _).
  - done.
  - rewrite place_order_io_present.
    by destruct (place_order clock cart orders) as [[o cart'] orders'].
Qed.

Lemma io_run_present catalog (calls : list call) cart orders :
  Forall (λ o, ∃ o', o = Done o')
    (io_run (World.mk cart (Files.mk (Some (Json catalog))
                              (Some (Json (OrderList orders))))) calls).1
  ∧ (io_run (World.mk cart (Files.mk (Some (Json catalog))
                              (Some (Json (OrderList orders))))) calls).2
    = World.mk (State.cart (run catalog (State.mk cart orders) calls))
        (Files.mk (Some (Json catalog))
           (Some (Json (OrderList
              (State.orders (run catalog (State.mk cart orders) calls)))))).
Proof.
  revert cart orders. induction calls as [|c calls IH]; intros cart orders.
  { by split. }
  cbn [io_run]. rewrite io_step_present.
  destruct (step catalog (State.mk cart orders) c) as [o [cart' orders']] eqn:Hstep.
  cbn [fst snd State.cart State.orders].
  destruct (IH cart' orders') as [Houts Hw].
  destruct (io_run _ calls) as [outs w]. simpl in *.
  split; [constructor; [by eexists|done]|].
  rewrite Hw. unfold run. simpl. by rewrite Hstep.
Qed.

Lemma io_step_files_exist (w : World.t) (c : call) :
  files_exist (World.files w) →
  (io_step w c).1 ≠ Failed FileNotFoundError
  ∧ files_exist (World.files (io_step w c).2).
Proof.
  destruct w as [cart [file_c file_o]]. unfold files_exist. simpl.
  intros [[cc ->] [co ->]].
  destruct c as [[item_name quantity|item_name]|clock]; simpl.
  - unfold add_to_cart_io, load_catalog. simpl.
    destruct cc as [|catalog]; simpl; [by split; [|split; eexists]|].
    destruct (add_to_cart _ _ _ _). simpl. by split; [|split; eexists].
  - by split; [|split; eexists].
  - unfold place_order_io, load_orders.
    destruct cart as [|ci cart]; simpl; [by split; [|split; eexists]|].
    destruct (cart_sum _); simpl; [|by split; [|split; eexists]].
    destruct co as [|[|orders]]; simpl; by split; [|split; eexists].
Qed.

Lemma io_run_files_exist (calls : list call) (w : World.t) :
  files_exist (World.files w) →
  Forall (λ o, o ≠ Failed FileNotFoundError) (io_run w calls).1
  ∧ files_exist (World.files (io_run w calls).2).
Proof.
  revert w. induction calls as [|c calls IH]; intros w Hw; [by split|].
  cbn [io_run]. destruct (io_step_files_exist w c Hw) as [Ho Hw'].
  destruct (io_step w c) as [o w']. simpl in Ho, Hw'.
  destruct (IH w' Hw') as [Hos Hw''].
  destruct (io_run w' calls) as [os w'']. simpl in *.
  split; [by constructor|done].
Qed.

(** X14. What start-up buys a worker.  After a start-up that succeeded,
    no tool call fails with [FileNotFoundError], and both files still
    exist after any sequence of calls: this holds whatever the files hold.
    Start-up does not read them, so more needs what they hold: when
    [catalog.json] holds a catalog, and the orders file was missing or
    holds a list of orders, every call comes to its own outcome, the
    catalog file stays as it is, and the cart and the orders file go
    exactly as [run] has them. *)
Theorem worker_after_startup fs0 fs cart (calls : list call) :
  startup fs0 = inr fs →
  Forall (λ o, o ≠ Failed FileNotFoundError) (io_run (World.mk cart fs) calls).1
  ∧ files_exist (World.files (io_run (World.mk cart fs) calls).2)
  ∧ ∀ catalog orders,
      Files.catalog fs0 = Some (Json catalog) →
      Files.orders fs0 = None ∧ orders = []
      ∨ Files.orders fs0 = Some (Json (OrderList orders)) →
      Forall (λ o, ∃ o', o = Done o') (io_run (World.mk cart fs) calls).1
      ∧ (io_run (World.mk cart fs) calls).2
        = World.mk (State.cart (run catalog (State.mk cart orders) calls))
            (Files.mk (Some (Json catalog))
               (Some (Json (OrderList
                  (State.orders (run catalog (State.mk cart orders) calls)))))).
Proof.
  intros Hstart.
  assert (files_exist fs) as Hfs.
  { destruct fs0 as [[c|] [o|]]; unfold startup in Hstart; simpl in Hstart;
      try done; injection Hstart as <-; by split; eexists. }
  destruct (io_run_files_exist calls (World.mk cart fs) Hfs) as [Hos Hw].
  split; [done|]. split; [done|].
  intros catalog orders Hc Ho.
  assert (fs = Files.mk (Some (Json catalog)) (Some (Json (OrderList orders))))
    as ->; [|apply io_run_present].
  destruct fs0 as [file_c file_o]. simpl in Hc, Ho. subst file_c.
  unfold startup in Hstart. simpl in Hstart.
  destruct Ho as [[-> ->]| ->]; by injection Hstart as <-.
Qed.

(** X16. An orders file that cannot be used is met by [place_order]
    only after the empty-cart test and the total.
    With a file [json.load] rejects, an empty cart still gets [EMPTY] and
    a quantity beyond the floats still raises [OverflowError]; any other
    cart fails with [JSONDecodeError].  With a file that holds something
    other than a list the same cart raises [AttributeError] at
    [all_orders.append].  In every case the cart is kept and no file is
    written. *)
Theorem place_order_io_unusable_file clock cart fs (c : content orders_value) :
  Files.orders fs = Some c →
  c = Garbled ∨ c = Json NotAList →
  place_order_io clock cart fs
  = (match cart with
     | [] => Done (Return EMPTY)
     | _ :: _ =>
         if decide (Exists too_large cart) then Done (Raise OverflowError)
         else match c with
              | Garbled => Failed JSONDecodeError
              | Json _ => Done (Raise AttributeError)
              end
     end, cart, fs).
Proof.
  intros Hfs Hc. unfold place_order_io, load_orders. rewrite Hfs.
  destruct cart as [|ci cart]; [done|].
  destruct (too_large_or_not (ci :: cart)) as [Hbig|Hok].
  - rewrite (cart_sum_overflow _ Hbig). by rewrite decide_True.
  - destruct (cart_sum_in_range _ Hok) as [total ->].
    rewrite decide_False.
    + by destruct Hc as [-> | ->].
    + intros (d & Hd & Hl)%Exists_exists.
      eapply Forall_forall in Hok; [|done]. unfold too_large in Hl. simpl in *. lia.
Qed.

(** X15. [place_order] reads the orders file only after the empty-cart
    test and the total: with the file gone, an empty cart still gets
    [EMPTY] and a quantity beyond the floats still raises
    [OverflowError]; any other cart fails with [FileNotFoundError].  In
    every case the cart is kept and no file is written. *)
Theorem place_order_io_missing_file clock cart fs :
  Files.orders fs = None →
  place_order_io clock cart fs
  = (match cart with
     | [] => Done (Return EMPTY)
     | _ :: _ =>
         if decide (Exists too_large cart) then Done (Raise OverflowError)
         else Failed FileNotFoundError
     end, cart, fs).
Proof.
  intros Hfs. unfold place_order_io, load_orders. rewrite Hfs.
  destruct cart as [|ci cart]; [done|].
  destruct (too_large_or_not (ci :: cart)) as [Hbig|Hok].
  - rewrite (cart_sum_overflow _ Hbig). by rewrite decide_True.
  - destruct (cart_sum_in_range _ Hok) as [total ->].
    rewrite decide_False; [done|].
    intros (c & Hc & Hl)%Exists_exists.
    eapply Forall_forall in Hok; [|done]. unfold too_large in Hl. simpl in *. lia.
Qed.

End FileProperties.

(** ** The compositions at work on [binary64] *)

Lemma add_then_remove_witness :
  ci_eq "EGGS" "eggs"
  ∧ Exists (item_matches "EGGS") Demo.catalog
  ∧ remove_from_cart (add_to_cart Demo.catalog Demo.cart "EGGS" 12).2 "eggs"
    = (REMOVED, filter (λ ci, ¬ line_matches "EGGS" ci) Demo.cart)
  ∧ (Forall (λ ci, ¬ line_matches "EGGS" ci) Demo.cart →
       remove_from_cart (add_to_cart Demo.catalog Demo.cart "EGGS" 12).2 "eggs"
       = (REMOVED, Demo.cart)).
Proof.
  assert (ci_eq "EGGS" "eggs") as Hnm by reflexivity.
  assert (Exists (item_matches "EGGS") Demo.catalog) as Hcat by compute_done.
  split; [done|]. split; [done|].
  exact (add_then_remove Demo.catalog Demo.cart "EGGS" "eggs" 12 Hnm Hcat).
Defined.

Lemma remove_twice_witness :
  ci_eq "MILK" "milk"
  ∧ Forall (λ ci, ¬ line_matches "MILK" ci) (remove_from_cart Demo.cart "MILK").2
  ∧ remove_from_cart (remove_from_cart Demo.cart "MILK").2 "milk"
    = (NOT_FOUND, (remove_from_cart Demo.cart "MILK").2).
Proof.
  assert (ci_eq "MILK" "milk") as Hnm by reflexivity.
  split; [done|].
  exact (remove_twice Demo.cart "MILK" "milk" Hnm).
Defined.

Lemma remove_then_add_witness :
  let x := CatalogItem.mk "Milk" (B64.of_Z_exp 30 0) in
  let c2 := [ CatalogItem.mk "Bread" (B64.of_Z_exp 45 0);
              CatalogItem.mk "Eggs" (B64.of_Z_exp 13 (-1)) ] in
  ci_eq "milk" "MILK"
  ∧ first_at (item_matches "MILK") Demo.catalog [] x c2
  ∧ (add_to_cart Demo.catalog (remove_from_cart Demo.cart "milk").2 "MILK" 5).2
    = filter (λ ci, ¬ line_matches "milk" ci) Demo.cart
      ++ [CartItem.mk (CatalogItem.name x) 5 (to_float (CatalogItem.price x))]
  ∧ (printable 5 →
       (add_to_cart Demo.catalog (remove_from_cart Demo.cart "milk").2 "MILK" 5).1
       = Return (ADDED (CatalogItem.name x) 5))
  ∧ (¬ printable 5 →
       (add_to_cart Demo.catalog (remove_from_cart Demo.cart "milk").2 "MILK" 5).1
       = Raise ValueError).
Proof.
  cbv zeta.
  assert (ci_eq "milk" "MILK") as Hnm by reflexivity.
  assert (first_at (item_matches "MILK") Demo.catalog []
            (@CatalogItem.mk binary64 "Milk" (B64.of_Z_exp 30 0))
            [ @CatalogItem.mk binary64 "Bread" (B64.of_Z_exp 45 0);
              @CatalogItem.mk binary64 "Eggs" (B64.of_Z_exp 13 (-1)) ]) as Hx.
  { unfold first_at. split_and!; [reflexivity|constructor|reflexivity]. }
  split; [exact Hnm|]. split; [exact Hx|].
  exact (remove_then_add Demo.catalog Demo.cart "milk" "MILK" 5 _ _ _ Hnm Hx).
Defined.

Lemma price_fixed_at_first_add_witness :
  let x := CatalogItem.mk "Eggs" (B64.of_Z_exp 13 (-1)) in
  let c1 := [ CatalogItem.mk "Milk" (B64.of_Z_exp 30 0);
              CatalogItem.mk "Bread" (B64.of_Z_exp 45 0) ] in
  first_at (item_matches "eggs") Demo.catalog c1 x []
  ∧ ci_eq "Eggs" "eggs"
  ∧ Exists (item_matches "Eggs") DemoFiles.new_catalog
  ∧ Forall (λ ci, ¬ line_matches "eggs" ci) Demo.cart
  ∧ (add_to_cart DemoFiles.new_catalog
       (add_to_cart Demo.catalog Demo.cart "eggs" 6).2 "Eggs" 6).2
    = Demo.cart ++ [CartItem.mk (CatalogItem.name x) (6 + 6)
                      (to_float (CatalogItem.price x))]
  ∧ (printable (6 + 6) →
       (add_to_cart DemoFiles.new_catalog
          (add_to_cart Demo.catalog Demo.cart "eggs" 6).2 "Eggs" 6).1
       = Return (UPDATED (CatalogItem.name x) (6 + 6)))
  ∧ (¬ printable (6 + 6) →
       (add_to_cart DemoFiles.new_catalog
          (add_to_cart Demo.catalog Demo.cart "eggs" 6).2 "Eggs" 6).1
       = Raise ValueError).
Proof.
  cbv zeta.
  assert (first_at (item_matches "eggs") Demo.catalog
            [ @CatalogItem.mk binary64 "Milk" (B64.of_Z_exp 30 0);
              @CatalogItem.mk binary64 "Bread" (B64.of_Z_exp 45 0) ]
            (@CatalogItem.mk binary64 "Eggs" (B64.of_Z_exp 13 (-1))) []) as Hx.
  { unfold first_at. split_and!; [reflexivity|compute_done|reflexivity]. }
  assert (ci_eq "Eggs" "eggs") as Hn by reflexivity.
  assert (Exists (item_matches "Eggs") DemoFiles.new_catalog) as Hcat2
    by compute_done.
  assert (Forall (λ ci, ¬ line_matches "eggs" ci) Demo.cart) as Hcart
    by compute_done.
  split; [exact Hx|]. split; [exact Hn|]. split; [exact Hcat2|].
  split; [exact Hcart|].
  exact (price_fixed_at_first_add Demo.catalog DemoFiles.new_catalog Demo.cart
           "eggs" "Eggs" 6 6 _ _ _ Hx Hn Hcat2 Hcart).
Defined.

Lemma order_id_same_second_witness :
  let milk := [CartItem.mk "Milk" 1 (B64.of_Z_exp 30 0)] in
  let first :=
    Order.mk "ORD-1764230400" "2025-11-27T08:00:00.000000" Demo.cart
      (B64.of_Z_exp 120 0) "received" in
  let second :=
    Order.mk "ORD-1764230400" "2025-11-27T08:00:00.500000" milk
      (B64.of_Z_exp 30 0) "received" in
  place_order Demo.clock Demo.cart []
    = (Return (PLACED "ORD-1764230400" (B64.of_Z_exp 120 0)), [], [first])
  ∧ place_order DemoFiles.later_clock milk [first]
    = (Return (PLACED "ORD-1764230400" (B64.of_Z_exp 30 0)), [], [first; second])
  ∧ ("ORD-1764230400" = "ORD-1764230400"
     ↔ unix_seconds Demo.clock = unix_seconds DemoFiles.later_clock).
Proof.
  cbv zeta.
  assert (place_order Demo.clock Demo.cart []
          = (Return (PLACED "ORD-1764230400" (B64.of_Z_exp 120 0)), [],
             [Order.mk "ORD-1764230400" "2025-11-27T08:00:00.000000" Demo.cart
                (B64.of_Z_exp 120 0) "received"])) as H1 by reflexivity.
  assert (place_order DemoFiles.later_clock
            [CartItem.mk "Milk" 1 (B64.of_Z_exp 30 0)]
            [Order.mk "ORD-1764230400" "2025-11-27T08:00:00.000000" Demo.cart
               (B64.of_Z_exp 120 0) "received"]
          = (Return (PLACED "ORD-1764230400" (B64.of_Z_exp 30 0)), [],
             [Order.mk "ORD-1764230400" "2025-11-27T08:00:00.000000" Demo.cart
                (B64.of_Z_exp 120 0) "received";
              Order.mk "ORD-1764230400" "2025-11-27T08:00:00.500000"
                [CartItem.mk "Milk" 1 (B64.of_Z_exp 30 0)]
                (B64.of_Z_exp 30 0) "received"])) as H2 by reflexivity.
  split; [done|]. split; [done|].
  exact (order_id_same_second Demo.clock DemoFiles.later_clock _ _ _ _ _ _ _ _
           _ _ _ _ H1 H2).
Defined.

Lemma worker_after_startup_witness :
  let calls := [Cart (Add "milk" 2); PlaceOrder Demo.clock; PlaceOrder Demo.clock] in
  let w := io_run (World.mk [] DemoFiles.started) calls in
  startup DemoFiles.first_run = inr DemoFiles.started
  ∧ Forall (λ o, o ≠ Failed FileNotFoundError) w.1
  ∧ files_exist (World.files w.2)
  ∧ ∀ catalog orders,
      Files.catalog DemoFiles.first_run = Some (Json catalog) →
      Files.orders DemoFiles.first_run = None ∧ orders = []
      ∨ Files.orders DemoFiles.first_run = Some (Json (OrderList orders)) →
      Forall (λ o, ∃ o', o = Done o') w.1
      ∧ w.2
        = World.mk (State.cart (run catalog (State.mk [] orders) calls))
            (Files.mk (Some (Json catalog))
               (Some (Json (OrderList
                  (State.orders (run catalog (State.mk [] orders) calls)))))).
Proof.
  cbv zeta.
  assert (startup DemoFiles.first_run = inr DemoFiles.started) as Hstart
    by reflexivity.
  split; [exact Hstart|].
  exact (worker_after_startup DemoFiles.first_run DemoFiles.started [] _ Hstart).
Defined.

Lemma place_order_io_unusable_file_witness :
  Files.orders DemoFiles.orders_truncated = Some Garbled
  ∧ ((Garbled : content orders_value) = Garbled ∨ Garbled = Json NotAList)
  ∧ startup DemoFiles.orders_truncated = inr DemoFiles.orders_truncated
  ∧ place_order_io Demo.clock Demo.cart DemoFiles.orders_truncated
    = (match Demo.cart with
       | [] => Done (Return EMPTY)
       | _ :: _ =>
           if decide (Exists too_large Demo.cart) then Done (Raise OverflowError)
           else Failed JSONDecodeError
       end, Demo.cart, DemoFiles.orders_truncated).
Proof.
  assert (Files.orders DemoFiles.orders_truncated = Some Garbled) as Hfile
    by reflexivity.
  assert ((Garbled : content (@orders_value binary64)) = Garbled
          ∨ Garbled = Json NotAList) as Hc by (by left).
  split; [exact Hfile|]. split; [exact Hc|]. split; [reflexivity|].
  exact (place_order_io_unusable_file Demo.clock Demo.cart
           DemoFiles.orders_truncated Garbled Hfile Hc).
Defined.

Lemma place_order_io_missing_file_witness :
  Files.orders DemoFiles.orders_gone = None
  ∧ place_order_io Demo.clock Demo.cart DemoFiles.orders_gone
    = (match Demo.cart with
       | [] => Done (Return EMPTY)
       | _ :: _ =>
           if decide (Exists too_large Demo.cart) then Done (Raise OverflowError)
           else Failed FileNotFoundError
       end, Demo.cart, DemoFiles.orders_gone).
Proof.
  assert (Files.orders DemoFiles.orders_gone = None) as Hgone by reflexivity.
  split; [done|].
  exact (place_order_io_missing_file Demo.clock Demo.cart DemoFiles.orders_gone Hgone).
Defined.

Lemma startup_spec_witness :
  startup DemoFiles.no_catalog = inl FileNotFoundError
  ∧ Files.orders DemoFiles.started = Some (Json (OrderList []))
  ∧ files_exist DemoFiles.started
  ∧ load_orders DemoFiles.started = inr (OrderList [])
  ∧ startup DemoFiles.started = inr DemoFiles.started.
Proof.
  destruct (startup_spec DemoFiles.no_catalog) as [Hfail _].
  destruct (startup_spec DemoFiles.first_run) as (_ & _ & Hok).
  destruct (Hok DemoFiles.started eq_refl)
    as (_ & Horders & Hexist & _ & Hload & _ & Hagain).
  split; [by apply Hfail|]. split; [exact Horders|]. split; [exact Hexist|].
  split; [by apply Hload|exact Hagain].
Defined.
